(** * The search index of the nussl documentation

    [searchindex.js] is one statement, [Search.setIndex({...})]: a call of the
    documentation site's search script on an object literal.  The literal is
    transcribed below constructor by constructor; the tables keep the names
    they have in the source ([filenames], [objects], [objnames], [objtypes],
    [terms], [titles], [titleterms]).  Property access, array indexing and
    the conversion of a number to a property key are modelled after
    JavaScript.  The callee [Search.setIndex] is not part of the file; it is
    modelled further down from the written description of the loader. *)

From Stdlib Require Import ZArith List String Ascii Bool Lia.
From Stdlib Require Import Permutation Sorted DecimalString.
From Stdlib Require DecimalZ DecimalPos.
Import ListNotations.

Open Scope string_scope.
Open Scope Z_scope.

(** ** JavaScript values that occur in the literal *)

#[local] Unset Elimination Schemes.

Inductive value : Type :=
| Num (n : Z)
| Str (s : string)
| Arr (elems : list value)
| Obj (props : list (string * value)).

#[local] Set Elimination Schemes.

(** The own property [k] among the properties of an object literal, read
    left to right: a key written twice keeps its last value. *)
Fixpoint lookup (k : string) (ps : list (string * value)) : option value :=
  match ps with
  | [] => None
  | (k', v) :: rest =>
      match lookup k rest with
      | Some w => Some w
      | None => if String.eqb k k' then Some v else None
      end
  end.

(** [o[k]]: [None] stands for [undefined]. *)
Definition get (k : string) (o : value) : option value :=
  match o with
  | Obj ps => lookup k ps
  | _ => None
  end.

(** [a[i]] on an array. *)
Definition at_index (i : nat) (a : value) : option value :=
  match a with
  | Arr l => nth_error l i
  | _ => None
  end.

(** [Object.entries(o)] and [Object.keys(o)], in source order. *)
Definition entries (o : value) : list (string * value) :=
  match o with
  | Obj ps => ps
  | _ => []
  end.

Definition keys (o : value) : list string := map fst (entries o).

(** The elements of an array. *)
Definition elements (a : value) : list value :=
  match a with
  | Arr l => l
  | _ => []
  end.

(** [String(n)]: the property key an integer is converted to. *)
Definition key_of_code (n : Z) : string := NilZero.string_of_int (Z.to_int n).

(** The integer a property key is the decimal writing of, if any. *)
Definition index_of_key (k : string) : option Z :=
  option_map Z.of_int (NilZero.int_of_string k).

(** ** The literal *)

(** The [filenames] array: the docname of a page is found at its index. *)
Definition filenames : value :=
  Arr [
    Str "examples/audio_signal_demo"; Str "examples/duet_demo"; Str "examples/examples";
    Str "examples/repet_demo"; Str "examples/repet_find_repeating_demo";
    Str "examples/repet_sim_demo"; Str "getting_started/audio_signal";
    Str "getting_started/audio_signal_basics"; Str "getting_started/audio_signal_stft";
    Str "getting_started/getting_started"; Str "getting_started/install";
    Str "getting_started/repet"; Str "index"; Str "src/KAM"; Str "src/Nmf";
    Str "src/audio_signal"; Str "src/classes"; Str "src/constants"; Str "src/duet";
    Str "src/modules"; Str "src/repet"; Str "src/repet_sim"; Str "src/separation_base";
    Str "src/spectral_utils"; Str "src/utils"
  ].

(** The [objects] table: owner name, then member name, then
    [[docname index, kind code, priority code, short signature]]. *)
Definition objects : value :=
  Obj [
    ("", Obj [
       ("Duet", Arr [Num 18; Num 0; Num 0; Str "-"]);
       ("KAM", Arr [Num 13; Num 0; Num 0; Str "-"]);
       ("Nmf", Arr [Num 14; Num 0; Num 0; Str "-"]);
       ("Repet", Arr [Num 20; Num 0; Num 0; Str "-"]);
       ("audio_signal", Arr [Num 15; Num 0; Num 0; Str "-"]);
       ("separation_base", Arr [Num 22; Num 0; Num 0; Str "-"]);
       ("spectral_utils", Arr [Num 23; Num 0; Num 0; Str "-"]);
       ("utils", Arr [Num 24; Num 0; Num 0; Str "-"])]);
    ("Duet.Duet", Obj [
       ("find_peaks2", Arr [Num 18; Num 2; Num 1; Str ""]);
       ("find_peaks", Arr [Num 18; Num 2; Num 1; Str ""]);
       ("make_audio_signals", Arr [Num 18; Num 3; Num 1; Str ""]);
       ("plot", Arr [Num 18; Num 3; Num 1; Str ""]);
       ("run", Arr [Num 18; Num 3; Num 1; Str ""]);
       ("twoDsmooth", Arr [Num 18; Num 3; Num 1; Str ""])]);
    ("KAM.Kernel", Obj [
       ("gen_predef_kernel", Arr [Num 13; Num 3; Num 1; Str ""]);
       ("sim", Arr [Num 13; Num 3; Num 1; Str ""])]);
    ("Nmf.DistanceType", Obj [
       ("DEFAULT", Arr [Num 14; Num 5; Num 1; Str ""]);
       ("DIVERGENCE", Arr [Num 14; Num 5; Num 1; Str ""]);
       ("EUCLIDEAN", Arr [Num 14; Num 5; Num 1; Str ""])]);
    ("Nmf.NMF", Obj [
       ("make_audio_signals", Arr [Num 14; Num 3; Num 1; Str ""]);
       ("plot", Arr [Num 14; Num 3; Num 1; Str ""]);
       ("randomize_input_matrices", Arr [Num 14; Num 3; Num 1; Str ""]);
       ("recombine_calculated_matrices", Arr [Num 14; Num 3; Num 1; Str ""]);
       ("run", Arr [Num 14; Num 3; Num 1; Str ""]);
       ("update", Arr [Num 14; Num 3; Num 1; Str ""])]);
    ("Repet.Repet", Obj [
       ("compute_beat_spectrum", Arr [Num 20; Num 2; Num 1; Str ""]);
       ("compute_repeating_mask_sim", Arr [Num 20; Num 2; Num 1; Str ""]);
       ("compute_repeating_mask_with_beat_spectrum", Arr [Num 20; Num 2; Num 1; Str ""]);
       ("compute_similarity_matrix", Arr [Num 20; Num 2; Num 1; Str ""]);
       ("find_peaks", Arr [Num 20; Num 3; Num 1; Str ""]);
       ("find_repeating_period_complex", Arr [Num 20; Num 2; Num 1; Str ""]);
       ("find_repeating_period_simple", Arr [Num 20; Num 2; Num 1; Str ""]);
       ("find_similarity_indices", Arr [Num 20; Num 3; Num 1; Str ""]);
       ("get_beat_spectrum", Arr [Num 20; Num 3; Num 1; Str ""]);
       ("get_similarity_matrix", Arr [Num 20; Num 3; Num 1; Str ""]);
       ("make_audio_signals", Arr [Num 20; Num 3; Num 1; Str ""]);
       ("plot", Arr [Num 20; Num 3; Num 1; Str ""]);
       ("run", Arr [Num 20; Num 3; Num 1; Str ""]);
       ("update_periods", Arr [Num 20; Num 3; Num 1; Str ""])]);
    ("Repet.RepetType", Obj [
       ("DEFAULT", Arr [Num 20; Num 5; Num 1; Str ""]);
       ("ORIGINAL", Arr [Num 20; Num 5; Num 1; Str ""]);
       ("SIM", Arr [Num 20; Num 5; Num 1; Str ""]);
       ("all_types", Arr [Num 20; Num 5; Num 1; Str ""])]);
    ("audio_signal.AudioSignal", Obj [
       ("active_region_is_default", Arr [Num 15; Num 5; Num 1; Str ""]);
       ("add", Arr [Num 15; Num 3; Num 1; Str ""]);
       ("audio_data", Arr [Num 15; Num 5; Num 1; Str ""]);
       ("audio_data_as_ints", Arr [Num 15; Num 3; Num 1; Str ""]);
       ("concat", Arr [Num 15; Num 3; Num 1; Str ""]);
       ("file_name", Arr [Num 15; Num 5; Num 1; Str ""]);
       ("freq_vector", Arr [Num 15; Num 5; Num 1; Str ""]);
       ("from_json", Arr [Num 15; Num 2; Num 1; Str ""]);
       ("get_channel", Arr [Num 15; Num 3; Num 1; Str ""]);
       ("get_power_spectrogram_channel", Arr [Num 15; Num 3; Num 1; Str ""]);
       ("get_stft_channel", Arr [Num 15; Num 3; Num 1; Str ""]);
       ("istft", Arr [Num 15; Num 3; Num 1; Str ""]);
       ("load_audio_from_array", Arr [Num 15; Num 3; Num 1; Str ""]);
       ("load_audio_from_file", Arr [Num 15; Num 3; Num 1; Str ""]);
       ("num_channels", Arr [Num 15; Num 5; Num 1; Str ""]);
       ("num_fft_bins", Arr [Num 15; Num 5; Num 1; Str ""]);
       ("peak_normalize", Arr [Num 15; Num 3; Num 1; Str ""]);
       ("plot_spectrogram", Arr [Num 15; Num 3; Num 1; Str ""]);
       ("plot_time_domain", Arr [Num 15; Num 3; Num 1; Str ""]);
       ("power_spectrogram_data", Arr [Num 15; Num 5; Num 1; Str ""]);
       ("rms", Arr [Num 15; Num 3; Num 1; Str ""]);
       ("set_active_region", Arr [Num 15; Num 3; Num 1; Str ""]);
       ("set_active_region_to_default", Arr [Num 15; Num 3; Num 1; Str ""]);
       ("signal_duration", Arr [Num 15; Num 5; Num 1; Str ""]);
       ("signal_length", Arr [Num 15; Num 5; Num 1; Str ""]);
       ("stft", Arr [Num 15; Num 3; Num 1; Str ""]);
       ("stft_data", Arr [Num 15; Num 5; Num 1; Str ""]);
       ("stft_length", Arr [Num 15; Num 5; Num 1; Str ""]);
       ("sub", Arr [Num 15; Num 3; Num 1; Str ""]);
       ("time_vector", Arr [Num 15; Num 5; Num 1; Str ""]);
       ("to_json", Arr [Num 15; Num 3; Num 1; Str ""]);
       ("to_mono", Arr [Num 15; Num 3; Num 1; Str ""]);
       ("truncate_samples", Arr [Num 15; Num 3; Num 1; Str ""]);
       ("truncate_seconds", Arr [Num 15; Num 3; Num 1; Str ""]);
       ("write_audio_to_file", Arr [Num 15; Num 3; Num 1; Str ""]);
       ("zero_pad", Arr [Num 15; Num 3; Num 1; Str ""])]);
    ("separation_base.SeparationBase", Obj [
       ("audio_signal", Arr [Num 22; Num 5; Num 1; Str ""]);
       ("from_json", Arr [Num 22; Num 6; Num 1; Str ""]);
       ("make_audio_signals", Arr [Num 22; Num 3; Num 1; Str ""]);
       ("plot", Arr [Num 22; Num 3; Num 1; Str ""]);
       ("run", Arr [Num 22; Num 3; Num 1; Str ""]);
       ("sample_rate", Arr [Num 22; Num 5; Num 1; Str ""]);
       ("stft_params", Arr [Num 22; Num 5; Num 1; Str ""]);
       ("to_json", Arr [Num 22; Num 3; Num 1; Str ""])]);
    ("separation_base.SeparationBaseDecoder", Obj [
       ("json_separation_decoder", Arr [Num 22; Num 3; Num 1; Str ""])]);
    ("spectral_utils.StftParams", Obj [
       ("from_json", Arr [Num 23; Num 2; Num 1; Str ""]);
       ("hop_length", Arr [Num 23; Num 5; Num 1; Str ""]);
       ("n_fft_bins", Arr [Num 23; Num 5; Num 1; Str ""]);
       ("to_json", Arr [Num 23; Num 3; Num 1; Str ""]);
       ("window_length", Arr [Num 23; Num 5; Num 1; Str ""]);
       ("window_overlap", Arr [Num 23; Num 5; Num 1; Str ""])]);
    ("Duet", Obj [
       ("Duet", Arr [Num 18; Num 1; Num 1; Str ""])]);
    ("KAM", Obj [
       ("Kernel", Arr [Num 13; Num 1; Num 1; Str ""]);
       ("kam", Arr [Num 13; Num 4; Num 1; Str ""]);
       ("kaml", Arr [Num 13; Num 4; Num 1; Str ""]);
       ("randSVD", Arr [Num 13; Num 4; Num 1; Str ""])]);
    ("Nmf", Obj [
       ("DistanceType", Arr [Num 14; Num 1; Num 1; Str ""]);
       ("NMF", Arr [Num 14; Num 1; Num 1; Str ""])]);
    ("Repet", Obj [
       ("Repet", Arr [Num 20; Num 1; Num 1; Str ""]);
       ("RepetType", Arr [Num 20; Num 1; Num 1; Str ""])]);
    ("audio_signal", Obj [
       ("AudioSignal", Arr [Num 15; Num 1; Num 1; Str ""])]);
    ("separation_base", Obj [
       ("SeparationBase", Arr [Num 22; Num 1; Num 1; Str ""]);
       ("SeparationBaseDecoder", Arr [Num 22; Num 1; Num 1; Str ""])]);
    ("spectral_utils", Obj [
       ("StftParams", Arr [Num 23; Num 1; Num 1; Str ""]);
       ("e_istft", Arr [Num 23; Num 4; Num 1; Str ""]);
       ("e_stft", Arr [Num 23; Num 4; Num 1; Str ""]);
       ("e_stft_plus", Arr [Num 23; Num 4; Num 1; Str ""]);
       ("get_window_function", Arr [Num 23; Num 4; Num 1; Str ""]);
       ("librosa_istft_wrapper", Arr [Num 23; Num 4; Num 1; Str ""]);
       ("librosa_stft_wrapper", Arr [Num 23; Num 4; Num 1; Str ""]);
       ("make_window", Arr [Num 23; Num 4; Num 1; Str ""]);
       ("plot_stft", Arr [Num 23; Num 4; Num 1; Str ""])]);
    ("utils", Obj [
       ("add_mismatched_arrays", Arr [Num 24; Num 4; Num 1; Str ""]);
       ("find_peak_indices", Arr [Num 24; Num 4; Num 1; Str ""]);
       ("find_peak_values", Arr [Num 24; Num 4; Num 1; Str ""]);
       ("json_numpy_obj_hook", Arr [Num 24; Num 4; Num 1; Str ""]);
       ("json_ready_numpy_array", Arr [Num 24; Num 4; Num 1; Str ""]);
       ("json_serialize_numpy_array", Arr [Num 24; Num 4; Num 1; Str ""]);
       ("load_numpy_json", Arr [Num 24; Num 4; Num 1; Str ""])])
  ].

(** The [objnames] table: kind code to [[domain, kind label, human label]]. *)
Definition objnames : value :=
  Obj [
    ("0", Arr [Str "py"; Str "module"; Str "Python module"]);
    ("1", Arr [Str "py"; Str "class"; Str "Python class"]);
    ("2", Arr [Str "py"; Str "staticmethod"; Str "Python static method"]);
    ("3", Arr [Str "py"; Str "method"; Str "Python method"]);
    ("4", Arr [Str "py"; Str "function"; Str "Python function"]);
    ("5", Arr [Str "py"; Str "attribute"; Str "Python attribute"]);
    ("6", Arr [Str "py"; Str "classmethod"; Str "Python class method"])
  ].

(** The [objtypes] table: kind code to the qualified kind name. *)
Definition objtypes : value :=
  Obj [
    ("0", Str "py:module"); ("1", Str "py:class"); ("2", Str "py:staticmethod");
    ("3", Str "py:method"); ("4", Str "py:function"); ("5", Str "py:attribute");
    ("6", Str "py:classmethod")
  ].

(** The [terms] table: a stemmed word to one docname index or to an array of them. *)
Definition terms : value :=
  Obj [
    ("00000000e", Arr [Num 7; Num 8]); ("00j", Num 8); ("01010437e", Num 8);
    ("01459695e", Num 11); ("01j", Num 8); ("02j", Num 8); ("03712653e", Num 11);
    ("03958548e", Num 8); ("03j", Num 8); ("04370117e", Num 7); ("04j", Num 8);
    ("05355762e", Num 11); ("05598299e", Num 8); ("05j", Num 8); ("06j", Num 8);
    ("09772983e", Num 8); ("0th", Num 24); ("10351562e", Num 7); ("10690389e", Num 8);
    ("10865979e", Num 8); ("10948921e", Num 8); ("11507810e", Num 8); ("13543447e", Num 8);
    ("13899261e", Num 8); ("13th", Num 20); ("15182253e", Num 8); ("16959708e", Num 11);
    ("17312478e", Num 11); ("17514888e", Num 8); ("18454359e", Num 8); ("19548659e", Num 8);
    ("1khz", Arr [Num 15; Num 23]); ("1st", Num 24); ("22329084e", Num 11);
    ("23063958e", Num 8); ("24206716e", Num 8); ("25701912e", Num 8); ("26759941e", Num 7);
    ("29464362e", Num 8); ("32384062e", Num 8); ("32742891e", Num 8); ("34350201e", Num 8);
    ("36735573e", Num 8); ("38020910e", Num 11); ("38383443e", Num 11); ("39212409e", Num 8);
    ("44100hz", Num 23); ("47192383e", Num 7); ("48025423e", Num 8); ("48095401e", Num 11);
    ("48953497e", Num 8); ("49999994e", Num 8); ("51177116e", Num 8); ("51614663e", Num 8);
    ("52118325e", Num 8); ("53445200e", Num 11); ("53519881e", Num 7); ("55473606e", Num 8);
    ("56239875e", Num 11); ("56665993e", Num 8); ("58720455e", Num 8); ("5a9", Num 10);
    ("62078346e", Num 11); ("62180164e", Num 11); ("62709228e", Num 8); ("63284254e", Num 11);
    ("63712271e", Num 8); ("64896795e", Num 11); ("65341552e", Num 8); ("65585184e", Num 8);
    ("66982430e", Num 8); ("67004268e", Num 8); ("67153326e", Num 8); ("69027053e", Num 8);
    ("69828972e", Num 8); ("75931435e", Num 11); ("79334674e", Num 8); ("83410645e", Num 7);
    ("83490305e", Num 8); ("83491215e", Num 8); ("84503690e", Num 8); ("87543298e", Num 8);
    ("89334124e", Num 8); ("91909746e", Num 8); ("92616252e", Num 11); ("93204018e", Num 8);
    ("95030794e", Num 8); ("95939099e", Num 8); ("96160686e", Num 8); ("97824207e", Num 8);
    ("97913919e", Num 8); ("99995465e", Num 7); ("99997732e", Num 7); ("99998429e", Num 11);
    ("__file__", Arr [Num 0; Num 3; Num 5]); ("__future__", Num 7); ("__init__", Num 10);
    ("__main__", Arr [Num 0; Num 1; Num 3; Num 4; Num 5]);
    ("__name__", Arr [Num 0; Num 1; Num 3; Num 4; Num 5]); ("_backend_mod", Num 10);
    ("_macosx", Num 10); ("_show", Num 10); ("case", Arr [Num 10; Num 13; Num 24]);
    ("class", Arr []);
    ("default", Arr [Num 7; Num 8; Num 10; Num 13; Num 14; Num 15; Num 18; Num 20; Num 22; Num 23; Num 24]);
    ("final", Arr []); ("float", Arr [Num 4; Num 7; Num 13; Num 15; Num 18; Num 20; Num 24]);
    ("function", Arr [Num 8; Num 10; Num 13; Num 14; Num 15; Num 23; Num 24]);
    ("import", Arr [Num 0; Num 1; Num 3; Num 4; Num 5; Num 7; Num 10; Num 11; Num 23]);
    ("int", Arr [Num 7; Num 13; Num 15; Num 18; Num 20; Num 22; Num 23; Num 24]);
    ("new", Arr [Num 7; Num 8; Num 11; Num 12; Num 13; Num 15; Num 22]);
    ("return", Arr [Num 7; Num 14; Num 15; Num 18; Num 20; Num 22; Num 23; Num 24]);
    ("short", Arr [Num 8; Num 15; Num 23]); ("static", Arr [Num 15; Num 18; Num 20; Num 23]);
    ("switch", Num 10); ("throw", Num 20);
    ("true", Arr [Num 1; Num 7; Num 8; Num 13; Num 15; Num 18; Num 20; Num 23; Num 24]);
    ("try", Arr [Num 8; Num 10; Num 11]); ("while", Arr [Num 8; Num 12; Num 15]);
    ("a_max", Num 18); ("a_min", Num 18); ("a_min_dist", Num 18); ("a_num", Num 18);
    ("abl", Arr [Num 8; Num 10]); ("about", Arr [Num 7; Num 8; Num 10; Num 11]);
    ("abov", Arr [Num 8; Num 10; Num 23]); ("abspath", Arr [Num 0; Num 3; Num 5]);
    ("accept", Arr [Num 15; Num 24]); ("access", Arr [Num 8; Num 10; Num 15; Num 23]);
    ("accordingli", Num 8); ("accur", Num 8); ("acoust", Num 13); ("across", Num 11);
    ("activ", Arr [Num 10; Num 14; Num 15]); ("activation_matrix", Num 14);
    ("active_region_is_default", Num 15); ("actual", Arr [Num 7; Num 23]); ("ad_est", Num 18);
    ("adapt", Num 24); ("add", Arr [Num 7; Num 10; Num 15; Num 24]);
    ("add_mismatched_arrai", Num 24); ("addit", Arr [Num 13; Num 15]); ("addition", Num 23);
    ("adjac", Num 23); ("adjust", Num 8); ("advanc", Num 14); ("affect", Num 15);
    ("after", Arr [Num 10; Num 15; Num 22]); ("again", Arr [Num 7; Num 11]); ("aha", Num 8);
    ("ahead", Num 23); ("aim", Num 12);
    ("algorithm", Arr [Num 7; Num 8; Num 11; Num 12; Num 13; Num 14; Num 15; Num 18; Num 20; Num 22; Num 23; Num 24]);
    ("algparam", Num 13);
    ("all", Arr [Num 7; Num 8; Num 10; Num 13; Num 14; Num 15; Num 20; Num 22]);
    ("all_typ", Num 20); ("allow", Arr [Num 12; Num 14]); ("almost", Num 8); ("along", Num 13);
    ("alongsid", Num 10); ("alreadi", Num 23); ("alright", Num 7);
    ("also", Arr [Num 8; Num 10; Num 11; Num 12; Num 14; Num 23; Num 24]); ("altern", Num 10);
    ("alwai", Num 22); ("amountof", Num 13); ("anaconda2", Num 10); ("anaconda", Arr []);
    ("ani", Arr [Num 10; Num 12; Num 13; Num 15; Num 20; Num 23; Num 24]);
    ("anoth", Arr [Num 7; Num 10]); ("antoin", Num 13); ("anyth", Num 22);
    ("arang", Arr [Num 7; Num 13]); ("arbitrari", Num 11); ("arg", Arr []); ("argmin", Num 8);
    ("argument", Num 20); ("aris", Num 10); ("around", Num 23); ("arrai", Arr []);
    ("array1", Num 24); ("array2", Num 24); ("array_json", Num 24); ("artifact", Num 8);
    ("asarrai", Num 13); ("associ", Arr [Num 20; Num 22]);
    ("assum", Arr [Num 8; Num 14; Num 23]); ("attenu", Num 18);
    ("attribut", Arr [Num 18; Num 23]); ("attributeerror", Num 15);
    ("audio", Arr [Num 3; Num 5; Num 7; Num 11; Num 12; Num 13; Num 15; Num 18; Num 20; Num 23]);
    ("audio_data", Arr [Num 7; Num 8; Num 15]); ("audio_data_arrai", Arr [Num 7; Num 15]);
    ("audio_data_as_int", Arr [Num 7; Num 15]);
    ("audio_sign", Arr [Num 11; Num 14; Num 15; Num 18; Num 20; Num 22]); ("audiolab", Num 13);
    ("audioread", Num 10); ("audiosign", Arr []); ("author", Num 12); ("autocorrel", Num 20);
    ("automat", Arr [Num 8; Num 11]); ("avail", Arr [Num 10; Num 15; Num 23]);
    ("averag", Arr [Num 7; Num 18; Num 20]); ("awar", Num 15); ("awesom", Num 7);
    ("axi", Arr [Num 13; Num 15]); ("back", Arr [Num 8; Num 11; Num 24]); ("backend", Num 10);
    ("backend_macosx", Num 10); ("backend_nam", Num 10); ("backfit", Num 13);
    ("backgroun", Num 3); ("background", Arr [Num 5; Num 11; Num 20]); ("barrier", Num 12);
    ("base", Arr [Num 4; Num 7; Num 8; Num 14; Num 15; Num 18; Num 20; Num 22]);
    ("basestr", Num 23); ("basi", Num 13); ("basic", Arr []); ("bean", Num 8);
    ("beat", Arr [Num 11; Num 20]); ("beat_spec", Num 20);
    ("beat_spectrum", Arr [Num 4; Num 11; Num 20]); ("becaus", Arr [Num 7; Num 8; Num 10]);
    ("been", Arr [Num 8; Num 11; Num 14]);
    ("befor", Arr [Num 7; Num 8; Num 11; Num 12; Num 15]); ("begin", Arr [Num 15; Num 23]);
    ("behavior", Arr [Num 7; Num 23]); ("belong", Num 24); ("below", Num 23);
    ("between", Arr [Num 7; Num 13; Num 18; Num 20; Num 23; Num 24]);
    ("bin", Arr [Num 8; Num 11; Num 13; Num 15; Num 18; Num 20; Num 23]);
    ("binari", Arr [Num 10; Num 13]); ("bit", Num 15); ("bit_depth", Num 15);
    ("bkgd", Arr [Num 3; Num 5; Num 20]); ("blackman", Arr []); ("blind", Num 18);
    ("bookkeep", Num 8); ("bool", Arr [Num 15; Num 18; Num 20; Num 23; Num 24]);
    ("both", Arr [Num 8; Num 11; Num 13; Num 20; Num 24]); ("bound", Arr [Num 15; Num 24]);
    ("breviti", Num 8); ("brief", Num 7); ("bryan", Num 20); ("bss", Num 18);
    ("bubbl", Arr []); ("bug", Num 12); ("built", Num 23);
    ("calcul", Arr [Num 15; Num 20; Num 23]); ("calculated_sign", Arr [Num 15; Num 23]);
    ("calculated_stft", Num 15);
    ("call", Arr [Num 8; Num 10; Num 11; Num 14; Num 20; Num 22; Num 23]); ("callabl", Num 23);
    ("can", Arr [Num 7; Num 8; Num 10; Num 11; Num 13; Num 15; Num 20; Num 23; Num 24]);
    ("cannot", Arr [Num 7; Num 15; Num 20; Num 22]); ("canva", Arr [Num 10; Num 23]);
    ("captur", Num 18); ("caus", Num 20); ("center", Num 23); ("central", Num 13);
    ("certain", Num 7); ("chang", Arr [Num 7; Num 8; Num 23]);
    ("channel", Arr [Num 7; Num 8; Num 13; Num 15; Num 18; Num 20; Num 23]);
    ("check", Arr [Num 10; Num 11]); ("choic", Num 13); ("classmethod", Num 22);
    ("close", Num 13); ("closest", Num 8); ("clue", Num 11); ("column", Arr [Num 13; Num 18]);
    ("com", Arr [Num 10; Num 23; Num 24]); ("combin", Num 13); ("come", Num 7);
    ("command", Num 10); ("common", Arr [Num 7; Num 12]); ("compact", Num 13);
    ("compar", Num 10); ("complet", Num 23); ("complex64", Num 8);
    ("complex", Arr [Num 4; Num 8; Num 13; Num 15; Num 23]); ("compon", Num 13);
    ("compress", Num 13);
    ("comput", Arr [Num 8; Num 11; Num 13; Num 14; Num 15; Num 20; Num 23]);
    ("computation", Num 13); ("compute_beat_spectrum", Arr [Num 11; Num 20]);
    ("compute_repeating_mask_sim", Num 20);
    ("compute_repeating_mask_with_beat_spectrum", Num 20);
    ("compute_similarity_matrix", Num 20); ("concat", Num 15); ("concaten", Num 15);
    ("confer", Num 13); ("config", Num 10); ("configur", Num 24); ("consid", Num 13);
    ("consol", Num 8); ("constant", Arr []); ("conta", Num 13);
    ("contain", Arr [Num 7; Num 8; Num 11; Num 13; Num 15; Num 18; Num 20; Num 23]);
    ("content", Num 15); ("control", Arr [Num 12; Num 15]); ("conveni", Num 23);
    ("convert", Arr [Num 4; Num 7; Num 15; Num 24]); ("convolut", Num 18);
    ("cool", Arr [Num 7; Num 8]); ("coordin", Num 13);
    ("copi", Arr [Num 8; Num 10; Num 11; Num 22]); ("core", Num 12);
    ("correctli", Arr [Num 8; Num 10]); ("correspond", Arr [Num 13; Num 15; Num 18; Num 20]);
    ("cosin", Num 20); ("could", Num 11); ("cowbell1_guitar_background_lib2", Num 3);
    ("cowbell1_guitar_foreground_lib2", Num 3); ("crash", Arr [Num 8; Num 10]);
    ("creat", Arr [Num 1; Num 8; Num 10; Num 11; Num 12; Num 15; Num 20; Num 22; Num 23]);
    ("cross", Num 13); ("crucial", Num 7); ("current", Arr [Num 7; Num 15; Num 24]);
    ("d_max", Num 18); ("d_min", Num 18); ("d_min_dist", Num 18); ("d_num", Num 18);
    ("daniel", Num 14); ("data", Arr [Num 7; Num 8; Num 15; Num 18; Num 20; Num 22; Num 23]);
    ("date", Num 10); ("dct", Num 24); ("decod", Arr [Num 22; Num 24]); ("decompos", Num 23);
    ("def", Arr [Num 0; Num 1; Num 3; Num 4; Num 5; Num 8]);
    ("default_sample_r", Arr [Num 15; Num 18; Num 23]);
    ("defin", Arr [Num 13; Num 14; Num 15]); ("defult", Num 13); ("degener", Num 18);
    ("delai", Num 18); ("demix", Num 18); ("demo", Arr [Num 18; Num 20]); ("demonstr", Num 11);
    ("denciti", Num 13); ("densiti", Num 23); ("depend", Num 10); ("deprec", Num 23);
    ("depth", Num 15); ("derri", Num 13); ("describ", Num 20); ("desir", Num 20);
    ("determin", Arr [Num 7; Num 13; Num 15; Num 20; Num 23]);
    ("dev1_female3_inst_mix", Arr [Num 1; Num 18]); ("develop", Arr [Num 10; Num 18]);
    ("diagon", Num 13); ("dict", Num 24); ("dietrich", Num 18); ("diff", Num 15);
    ("differ", Arr [Num 7; Num 11; Num 15; Num 23; Num 24]);
    ("dimens", Arr [Num 7; Num 8; Num 18; Num 24]); ("dimension", Arr [Num 18; Num 24]);
    ("direct", Num 13); ("directli", Arr [Num 10; Num 22; Num 23]);
    ("directori", Arr [Num 1; Num 3; Num 5; Num 10]); ("dirnam", Arr [Num 0; Num 3; Num 5]);
    ("dismiss", Num 20); ("displai", Num 23); ("dist", Num 10);
    ("distanc", Arr [Num 13; Num 14; Num 18; Num 20; Num 24]); ("distance_measur", Num 14);
    ("distancetyp", Num 14); ("diverg", Num 14); ("divis", Num 7); ("do_min", Num 24);
    ("do_stft", Num 14); ("doa", Num 18); ("doe", Arr [Num 7; Num 8; Num 15; Num 23]);
    ("doesn", Num 7); ("domain", Arr [Num 7; Num 8; Num 13; Num 15; Num 18]);
    ("don", Arr [Num 20; Num 23]); ("done", Arr [Num 15; Num 20]); ("dot", Num 12);
    ("down", Arr []); ("download", Arr []); ("draw_if_interact", Num 10);
    ("dtype", Arr [Num 7; Num 8; Num 13; Num 24]); ("duet_sourc", Num 1);
    ("duet_test1", Num 0); ("dur", Num 7); ("durat", Num 23); ("e_istft", Num 23);
    ("e_stft", Num 23); ("e_stft_plu", Num 23);
    ("each", Arr [Num 1; Num 7; Num 8; Num 11; Num 13; Num 15; Num 20; Num 23; Num 24]);
    ("easi", Arr [Num 7; Num 8; Num 10; Num 12]); ("edu", Arr [Num 12; Num 20]);
    ("eec", Num 20); ("effect", Num 23); ("effici", Num 23); ("egg", Num 10);
    ("either", Arr [Num 10; Num 13; Num 20; Num 23]);
    ("element", Arr [Num 13; Num 15; Num 18; Num 20]); ("elimin", Num 8); ("els", Num 20);
    ("elsewher", Num 10); ("encod", Arr [Num 15; Num 24]); ("encount", Num 10);
    ("end", Arr [Num 15; Num 23]); ("entir", Num 15); ("entri", Arr [Num 12; Num 15]);
    ("equal", Arr [Num 20; Num 23; Num 24]); ("equival", Num 13);
    ("estim", Arr [Num 11; Num 18]); ("ethan", Num 12); ("ethanmanilow", Num 12);
    ("euclidean", Num 14); ("everi", Arr [Num 7; Num 8; Num 23]); ("exact", Num 11);
    ("exactli", Arr [Num 11; Num 24]); ("examin", Num 8);
    ("except", Arr [Num 7; Num 15; Num 20]); ("exist", Arr [Num 1; Num 3; Num 5; Num 10]);
    ("exp", Num 13); ("expand", Num 24); ("expect", Arr [Num 8; Num 23]); ("expens", Num 13);
    ("explain", Num 23); ("explicitli", Num 7); ("expon", Num 13); ("extend", Num 15);
    ("extens", Num 15); ("extra", Num 23);
    ("extract", Arr [Num 11; Num 13; Num 15; Num 18; Num 20]); ("f_istft", Num 13);
    ("f_stft", Num 13); ("factor", Num 14); ("fail", Num 10); ("fall", Num 13);
    ("fals", Arr [Num 0; Num 8; Num 13; Num 14; Num 15; Num 18; Num 23; Num 24]);
    ("far", Num 11); ("faster", Arr [Num 8; Num 13]); ("featur", Num 15);
    ("few", Arr [Num 7; Num 8; Num 10; Num 20]); ("fft", Arr [Num 8; Num 15; Num 23]);
    ("fgnd", Arr [Num 3; Num 5]); ("fhat", Num 13); ("fig", Arr [Num 10; Num 23]);
    ("figur", Arr [Num 10; Num 23]); ("file", Arr []);
    ("file_nam", Arr [Num 7; Num 15; Num 23]); ("filenam", Num 15);
    ("filter", Arr [Num 8; Num 11; Num 13; Num 18]); ("find", Arr []);
    ("find_peak", Arr [Num 18; Num 20]); ("find_peak_indic", Num 24);
    ("find_peak_valu", Num 24); ("find_peaks2", Num 18);
    ("find_repeating_period_complex", Arr [Num 4; Num 20]);
    ("find_repeating_period_simpl", Arr [Num 4; Num 20]); ("find_similarity_indic", Num 20);
    ("fine", Arr [Num 10; Num 12]); ("first", Arr []); ("fitzgerald", Num 13); ("fix", Num 10);
    ("fkgd", Num 20); ("flag", Arr [Num 10; Num 15; Num 18; Num 23]);
    ("flexibl", Arr [Num 12; Num 23]); ("float32", Arr [Num 7; Num 8]); ("float64", Num 13);
    ("fmaxplot", Num 13); ("folder", Num 10); ("follow", Arr [Num 10; Num 23]);
    ("footnot", Arr [Num 7; Num 8]); ("forc", Arr [Num 10; Num 20]);
    ("foreground", Arr [Num 3; Num 5; Num 11; Num 20]); ("format", Arr [Num 7; Num 23]);
    ("forward", Num 8); ("found", Num 1); ("four", Num 10);
    ("fourier", Arr [Num 8; Num 15; Num 23]); ("frame", Arr [Num 11; Num 13; Num 20]);
    ("framework", Arr [Num 10; Num 12]); ("freq", Arr [Num 7; Num 8; Num 13; Num 20; Num 23]);
    ("freq_max", Num 23); ("freq_vector", Arr [Num 8; Num 15]); ("frequeci", Num 13);
    ("frequenc", Arr [Num 7; Num 8; Num 13; Num 15; Num 18; Num 23]);
    ("frequency_vector", Num 8); ("from", Arr []); ("from_json", Arr [Num 15; Num 22; Num 23]);
    ("full", Arr [Num 7; Num 13; Num 15]); ("fullkernel", Num 13); ("funcion", Num 13);
    ("further", Num 18); ("futur", Num 8); ("gamma", Num 13); ("gen_predef_kernel", Num 13);
    ("gener", Arr [Num 13; Num 20; Num 24]); ("get", Arr []);
    ("get_beat_spectrum", Arr [Num 4; Num 11; Num 20]); ("get_channel", Arr [Num 7; Num 15]);
    ("get_power_spectrogram_channel", Num 15); ("get_similarity_matrix", Num 20);
    ("get_stft_channel", Arr [Num 8; Num 15]); ("get_supported_filetyp", Arr [Num 10; Num 23]);
    ("get_window_funct", Num 23); ("github", Arr [Num 10; Num 12]);
    ("give", Arr [Num 11; Num 20; Num 23]); ("given", Arr [Num 13; Num 18; Num 20]);
    ("global", Num 10); ("good", Num 20); ("gotcha", Num 7); ("graph", Num 23);
    ("great", Num 7); ("guarante", Arr [Num 8; Num 23; Num 24]);
    ("guess", Arr [Num 7; Num 11]); ("guitar2__cowbell1_background_libstft", Num 5);
    ("guitar2__cowbell1_foreground_libstft", Num 5);
    ("guitar2__cowbell1_none_0", Arr [Num 3; Num 5]);
    ("guitar2__cowbell1_similarity_matrix_lib", Num 5); ("hadn", Arr [Num 7; Num 11]);
    ("half", Arr [Num 20; Num 23]); ("ham", Arr [Num 13; Num 20]); ("hann", Num 23);
    ("have", Arr []); ("haven", Num 20); ("heart", Num 7); ("help", Num 7); ("henc", Num 13);
    ("here", Arr [Num 7; Num 10; Num 11; Num 23]); ("high_pass_cutoff", Num 20);
    ("highest", Num 23); ("highli", Num 10); ("histogram", Arr [Num 1; Num 18]);
    ("histoi", Num 11); ("histori", Num 11); ("history_background", Num 11);
    ("history_beat_spectrum", Num 11); ("history_foreground", Num 11);
    ("historyrepeating_propellorhead", Num 4); ("historyrepeatingpropellerhead", Num 11);
    ("hop", Arr [Num 4; Num 8; Num 11; Num 23]);
    ("hop_length", Arr [Num 1; Num 4; Num 8; Num 15; Num 23]); ("horizont", Num 13);
    ("how", Arr [Num 7; Num 8; Num 11]); ("http", Arr [Num 10; Num 20; Num 23; Num 24]);
    ("icassp", Num 13); ("idx", Num 8); ("ieee", Arr [Num 13; Num 18]);
    ("ifi", Arr [Num 22; Num 24]); ("imag", Arr [Num 13; Num 23]);
    ("implement", Arr [Num 8; Num 12; Num 13; Num 14; Num 15; Num 18; Num 20]);
    ("includ", Arr [Num 13; Num 23]); ("index", Arr [Num 8; Num 10; Num 12; Num 15]);
    ("individu", Num 23); ("ineleg", Num 10); ("info", Arr [Num 7; Num 10]);
    ("inform", Arr [Num 7; Num 10; Num 14; Num 20; Num 23]); ("inherit", Num 23);
    ("init", Num 22);
    ("input", Arr [Num 0; Num 1; Num 3; Num 4; Num 5; Num 7; Num 13; Num 14; Num 15; Num 18; Num 20; Num 23; Num 24]);
    ("input_arrai", Num 24); ("input_audio_sign", Arr [Num 14; Num 18; Num 20; Num 22]);
    ("input_file_nam", Arr [Num 1; Num 18]); ("input_file_path", Arr [Num 7; Num 8; Num 15]);
    ("input_nam", Arr [Num 3; Num 5; Num 20]); ("inputfil", Num 13);
    ("insert", Arr [Num 0; Num 3; Num 5]); ("insid", Num 10); ("inspect", Arr [Num 8; Num 24]);
    ("instanc", Num 23); ("instanti", Arr [Num 11; Num 15; Num 22]);
    ("instead", Arr [Num 8; Num 13; Num 20; Num 23; Num 24]); ("int16", Num 7);
    ("integ", Arr [Num 11; Num 15; Num 23; Num 24]); ("intend", Num 23);
    ("interact", Arr [Num 12; Num 23]); ("interactiveaudiolab", Arr []); ("interest", Num 8);
    ("interfac", Num 8); ("intern", Arr [Num 7; Num 8; Num 13; Num 20; Num 23]);
    ("interv", Num 13); ("introduct", Num 7); ("invers", Arr []); ("invert", Num 8);
    ("issu", Arr []); ("istft", Arr [Num 0; Num 8; Num 15; Num 23]); ("iter", Num 13);
    ("join", Arr [Num 0; Num 1; Num 3; Num 5]); ("jourjin", Num 18);
    ("json", Arr [Num 15; Num 22; Num 24]); ("json_dict", Num 22);
    ("json_numpy_obj_hook", Num 24); ("json_ready_numpy_arrai", Num 24);
    ("json_separation_decod", Num 22); ("json_serialize_numpy_arrai", Num 24);
    ("json_str", Arr [Num 15; Num 22; Num 23]); ("jsondecod", Arr []); ("jump", Num 23);
    ("just", Arr [Num 7; Num 8; Num 11; Num 15; Num 23]); ("k_cross", Num 13); ("kam", Arr []);
    ("kaml", Num 13); ("kbf", Num 13); ("kernel", Arr [Num 13; Num 18]); ("khz", Num 7);
    ("kind", Arr [Num 8; Num 11]); ("knhood", Num 13); ("know", Arr [Num 8; Num 11]);
    ("kparam", Num 13); ("kparamv", Num 13); ("ktype", Num 13);
    ("kwarg", Arr [Num 14; Num 20; Num 22]); ("kwfunc", Num 13); ("lab", Num 12);
    ("lambda", Num 13); ("larger", Arr [Num 15; Num 24]); ("last", Arr [Num 10; Num 23]);
    ("leav", Arr [Num 8; Num 15]); ("lee", Num 14); ("left", Num 15);
    ("len", Arr [Num 7; Num 24]);
    ("length", Arr [Num 8; Num 11; Num 13; Num 15; Num 20; Num 23; Num 24]);
    ("less", Arr [Num 13; Num 15]); ("let", Arr [Num 7; Num 8; Num 11]);
    ("level", Arr [Num 8; Num 12; Num 23]); ("lib", Num 10); ("librari", Num 12);
    ("librosa", Arr [Num 8; Num 10; Num 23]); ("librosa_istft_wrapp", Num 23);
    ("librosa_stft_wrapp", Num 23); ("light", Num 13);
    ("like", Arr [Num 7; Num 8; Num 10; Num 11; Num 23]); ("limit", Num 13); ("line", Num 10);
    ("linear", Num 13); ("linspac", Num 23); ("list", Arr [Num 13; Num 18; Num 20; Num 24]);
    ("littl", Num 8); ("liutku", Num 13); ("load", Arr [Num 0; Num 1; Num 7; Num 11; Num 15]);
    ("load_audio_from_arrai", Num 15); ("load_audio_from_fil", Num 15);
    ("load_numpy_json", Num 24); ("local", Arr [Num 10; Num 22]); ("locat", Num 10);
    ("logic", Num 13); ("longer", Num 13); ("look", Arr [Num 8; Num 10; Num 11; Num 20]);
    ("lot", Num 7); ("low", Arr [Num 8; Num 12; Num 18]); ("lower", Arr [Num 23; Num 24]);
    ("lp_cutoff", Num 8); ("lp_stft", Num 8); ("mac", Num 10);
    ("machin", Arr [Num 10; Num 23]); ("macosx", Num 10); ("made", Num 11);
    ("magnitud", Num 20); ("mai", Arr [Num 8; Num 10; Num 11; Num 15; Num 23]);
    ("main", Arr [Num 0; Num 1; Num 3; Num 4; Num 5; Num 7; Num 15]); ("make", Arr []);
    ("make_audio_sign", Arr [Num 1; Num 3; Num 5; Num 11; Num 14; Num 18; Num 20; Num 22]);
    ("make_window", Num 23); ("makeplot", Num 13);
    ("mani", Arr [Num 7; Num 8; Num 11; Num 15; Num 23]); ("manilow", Num 12);
    ("manual", Num 23); ("march", Num 20); ("mask", Arr [Num 18; Num 20]); ("massag", Num 23);
    ("mat", Arr [Num 13; Num 18; Num 23]); ("match", Num 10); ("matplotlib", Arr []);
    ("matplotlibrc", Num 10); ("matrix", Arr [Num 11; Num 13; Num 14; Num 18; Num 20; Num 23]);
    ("max", Arr [Num 23; Num 24]); ("max_num", Arr [Num 18; Num 20]); ("max_peak", Num 18);
    ("max_period", Arr [Num 4; Num 11; Num 20]); ("max_repeating_fram", Num 20);
    ("maximum", Arr [Num 18; Num 20; Num 24]); ("mean", Arr [Num 7; Num 10; Num 13; Num 15]);
    ("meant", Num 23); ("measur", Arr [Num 13; Num 14; Num 20]);
    ("median", Arr [Num 11; Num 13]); ("merge_file_fhuypf", Arr []);
    ("merge_file_wi3qx7", Arr []); ("meshgrid", Num 13); ("method", Arr [Num 13; Num 20]);
    ("might", Num 10); ("min", Arr [Num 20; Num 24]);
    ("min_dist", Arr [Num 18; Num 20; Num 24]); ("min_distance_between_fram", Num 20);
    ("min_period", Arr [Num 4; Num 11; Num 20]); ("min_thr", Arr [Num 18; Num 20]);
    ("minimum", Arr [Num 18; Num 20; Num 24]); ("mixtur", Arr [Num 13; Num 18; Num 20]);
    ("mkdir", Arr [Num 1; Num 3; Num 5]); ("mode", Arr [Num 13; Num 23]); ("model", Num 13);
    ("mono", Num 7); ("more", Arr [Num 7; Num 8; Num 10; Num 15; Num 23]);
    ("most", Arr [Num 8; Num 10]); ("much", Num 15); ("multichannel", Num 23);
    ("multipl", Arr [Num 4; Num 11]); ("multipli", Num 13); ("music", Num 20);
    ("must", Arr [Num 11; Num 14; Num 24]); ("my_audio_sign", Num 15); ("n_ch", Num 0);
    ("n_fft_bin", Arr [Num 8; Num 15; Num 23]); ("n_peak", Num 24); ("n_sampl", Num 15);
    ("n_sec", Num 23); ("n_second", Num 15); ("name", Arr [Num 7; Num 10; Num 15]);
    ("ndarrai", Arr [Num 15; Num 23; Num 24]); ("neat", Num 11);
    ("need", Arr [Num 1; Num 3; Num 5; Num 8; Num 11; Num 23]); ("neg", Num 14);
    ("neighbour", Num 13); ("neighbourhood", Num 13); ("netherland", Num 18);
    ("neural", Num 14); ("never", Num 22); ("new_beat_spec_plot", Num 20);
    ("new_figure_manag", Num 10); ("new_plot", Num 20); ("new_sim_matrix_plot", Num 20);
    ("newest", Num 10); ("next", Num 23); ("nhood", Num 13); ("nmf", Arr []);
    ("non", Arr [Num 10; Num 11; Num 14; Num 20]);
    ("none", Arr [Num 7; Num 8; Num 13; Num 14; Num 15; Num 18; Num 20; Num 23; Num 24]);
    ("normal", Arr [Num 13; Num 15; Num 18]); ("northwestern", Arr [Num 12; Num 20]);
    ("note", Arr [Num 7; Num 8; Num 13; Num 15; Num 20; Num 23; Num 24]); ("noth", Num 14);
    ("notimplementederror", Num 22); ("now", Arr [Num 7; Num 8; Num 10; Num 11; Num 20]);
    ("num_bin", Num 23); ("num_channel", Arr [Num 0; Num 7; Num 15]); ("num_fft", Num 23);
    ("num_fft_bin", Arr [Num 8; Num 13; Num 15; Num 23]); ("num_sourc", Num 18);
    ("num_templ", Num 14); ("num_time_block", Num 23);
    ("number", Arr [Num 7; Num 8; Num 10; Num 11; Num 13; Num 14; Num 15; Num 18; Num 20; Num 23; Num 24]);
    ("numbi", Num 13); ("numer", Arr [Num 13; Num 18; Num 24]); ("numit", Num 13);
    ("nump", Num 24); ("numpi", Arr []); ("nussl", Arr []); ("nuzzl", Num 12);
    ("nyquist", Num 23); ("obecjt", Arr []); ("obj", Arr []); ("object", Arr []);
    ("octob", Num 20); ("off", Num 8); ("okai", Arr [Num 7; Num 8; Num 11]);
    ("onc", Arr [Num 10; Num 11]); ("onli", Arr [Num 13; Num 15; Num 20; Num 23; Num 24]);
    ("onu", Num 23); ("open", Arr [Num 10; Num 15]); ("oper", Arr [Num 8; Num 15]);
    ("option", Arr [Num 7; Num 13; Num 15; Num 18; Num 20; Num 23]);
    ("order", Arr [Num 11; Num 13; Num 18]); ("org", Num 10); ("orient", Num 12);
    ("origin", Arr [Num 15; Num 18; Num 20; Num 23]); ("other", Arr []);
    ("our", Arr [Num 7; Num 8; Num 11]); ("out", Arr [Num 3; Num 5; Num 11; Num 15; Num 23]);
    ("outlin", Num 11);
    ("output", Arr [Num 0; Num 1; Num 3; Num 5; Num 7; Num 8; Num 11; Num 13; Num 15; Num 18; Num 20; Num 23]);
    ("output_fil", Num 20); ("output_file_nam", Num 1); ("output_file_path", Num 15);
    ("output_nam", Arr [Num 18; Num 22]); ("output_name_stem", Num 1); ("outputfil", Num 14);
    ("outsid", Num 13); ("over", Arr [Num 13; Num 20; Num 23]); ("overflow", Num 10);
    ("overlai", Num 11); ("overlap", Num 23); ("overlap_sampl", Num 13);
    ("overrid", Arr [Num 20; Num 23]); ("overwrit", Arr [Num 7; Num 8; Num 15; Num 23]);
    ("own", Arr [Num 8; Num 11]); ("ozgur", Num 18); ("packag", Arr [Num 10; Num 13]);
    ("pad", Num 23); ("page", Arr [Num 7; Num 8; Num 12]); ("param", Arr [Num 15; Num 24]);
    ("paramet", Arr []); ("paramv", Num 13); ("pardo", Num 20);
    ("part", Arr [Num 11; Num 15; Num 20]);
    ("pass", Arr [Num 7; Num 8; Num 18; Num 20; Num 22; Num 23]); ("past", Num 10);
    ("path", Arr [Num 0; Num 1; Num 3; Num 5; Num 7; Num 8; Num 13; Num 15; Num 18; Num 20; Num 23]);
    ("path_to_fil", Num 20); ("path_to_file1", Num 0); ("path_to_file2", Num 0);
    ("path_to_input_fil", Arr [Num 1; Num 3; Num 5; Num 7; Num 15; Num 18; Num 20]);
    ("pattern", Arr [Num 7; Num 11; Num 20]); ("peak", Arr [Num 18; Num 20; Num 24]);
    ("peak_indic", Arr [Num 20; Num 24]); ("peak_norm", Num 15); ("peak_valu", Num 24);
    ("peakindex", Num 18); ("peasi", Num 8); ("per", Num 23); ("perfect", Num 13);
    ("perform", Arr [Num 18; Num 20; Num 23]); ("period", Arr []); ("period_complex", Num 4);
    ("period_complex_second", Num 4); ("period_simpl", Num 4); ("period_simple_second", Num 4);
    ("php", Num 20); ("pick", Num 18); ("piec", Num 20); ("pip", Arr []); ("place", Num 7);
    ("pleas", Arr [Num 10; Num 12]);
    ("plot", Arr [Num 1; Num 5; Num 14; Num 15; Num 18; Num 20; Num 22; Num 23]);
    ("plot_beat_spectrum", Num 20); ("plot_sim_matrix", Num 20); ("plot_spectrogram", Num 15);
    ("plot_stft", Num 23); ("plot_time_domain", Num 15); ("plt", Arr [Num 10; Num 23]);
    ("png", Arr [Num 1; Num 5; Num 20; Num 23]); ("point", Arr [Num 13; Num 15; Num 23]);
    ("popul", Arr [Num 8; Num 22]); ("popular", Num 12); ("portion", Num 13);
    ("porto", Num 20); ("portug", Num 20); ("posit", Num 18);
    ("possibl", Arr [Num 8; Num 10; Num 13; Num 20]); ("post", Num 10);
    ("power", Arr [Num 8; Num 13; Num 15; Num 20; Num 23]);
    ("power_spectrogram_data", Arr [Num 8; Num 15]); ("pre", Arr [Num 10; Num 13; Num 15]);
    ("predefin", Num 13); ("presum", Num 10); ("pretti", Num 11); ("previou", Num 8);
    ("previous", Num 24); ("principl", Num 11);
    ("print", Arr [Num 4; Num 7; Num 10; Num 15; Num 20; Num 23]);
    ("prior", Arr [Num 10; Num 14]); ("process", Arr [Num 13; Num 14; Num 18]);
    ("produc", Arr [Num 8; Num 11; Num 23]); ("project", Num 20); ("pronounc", Num 12);
    ("proper", Num 24); ("properti", Arr [Num 11; Num 13; Num 23]); ("propos", Num 18);
    ("prototyp", Num 12);
    ("provid", Arr [Num 7; Num 8; Num 12; Num 13; Num 14; Num 20; Num 22; Num 23; Num 24]);
    ("proxim", Num 13); ("psd", Arr [Num 13; Num 23]); ("put", Arr [Num 7; Num 15]);
    ("py2", Num 10); ("pylab_setup", Num 10); ("pypi", Num 10);
    ("pyplot", Arr [Num 10; Num 23]); ("python2", Num 10);
    ("python", Arr [Num 8; Num 10; Num 12]); ("quadrat", Num 13); ("question", Num 12);
    ("quick", Num 8); ("rafii", Arr [Num 13; Num 20]); ("rais", Arr [Num 15; Num 22]);
    ("random", Arr [Num 11; Num 13]); ("random_beat_spectrum", Num 11);
    ("randomize_input_matric", Num 14); ("randsvd", Num 13); ("rank", Num 13);
    ("rate", Arr [Num 13; Num 15; Num 18; Num 20; Num 22; Num 23]); ("rather", Num 8);
    ("read", Num 15); ("readi", Arr [Num 7; Num 24]);
    ("real", Arr [Num 11; Num 15; Num 18; Num 20; Num 23]); ("realli", Num 7);
    ("rebuild", Num 23); ("receiv", Arr [Num 13; Num 14; Num 18]); ("recent", Num 10);
    ("recombine_calculated_matric", Num 14); ("recommend", Arr [Num 10; Num 20; Num 23]);
    ("reconstruct", Num 8); ("reconstruct_reflect", Arr [Num 8; Num 15; Num 23]);
    ("recreat", Num 23); ("rectangular", Arr []); ("reduc", Num 23); ("ref", Num 15);
    ("refer", Arr [Num 7; Num 13; Num 14; Num 18; Num 20]); ("reflect", Arr [Num 8; Num 23]);
    ("region", Num 15); ("regular", Arr [Num 8; Num 24]); ("regularli", Num 15);
    ("reiniti", Num 8); ("reinstal", Num 10); ("relat", Arr [Num 7; Num 10; Num 15]);
    ("releas", Arr [Num 7; Num 8]); ("relev", Num 22); ("rememb", Num 23);
    ("remov", Arr [Num 8; Num 23]); ("remove_pad", Num 23);
    ("remove_reflect", Arr [Num 0; Num 8; Num 15; Num 23]); ("render", Num 10);
    ("repeat", Arr []); ("repeating_period", Arr [Num 4; Num 11; Num 20]); ("repet1", Num 20);
    ("repet2", Arr [Num 11; Num 20]); ("repet3", Num 20); ("repet4", Num 20);
    ("repet", Arr []); ("repet_exact_period", Num 11); ("repet_period_guess", Num 11);
    ("repet_sim", Num 5); ("repet_typ", Num 20); ("repettyp", Num 20); ("report", Num 12);
    ("repres", Arr [Num 8; Num 11; Num 15; Num 20; Num 23; Num 24]);
    ("represent", Arr [Num 7; Num 8; Num 15]); ("requir", Arr []); ("research", Num 20);
    ("reshap", Num 13); ("respons", Num 8);
    ("result", Arr [Num 1; Num 8; Num 13; Num 18; Num 20]); ("retriev", Num 20);
    ("reus", Arr [Num 11; Num 15]); ("review", Num 12); ("rickard", Num 18);
    ("right", Arr [Num 7; Num 13]); ("root", Arr [Num 7; Num 15]);
    ("row", Arr [Num 13; Num 18; Num 20]); ("rubric", Arr [Num 15; Num 20]);
    ("run", Arr [Num 1; Num 3; Num 5; Num 10; Num 13; Num 14; Num 15; Num 18; Num 20; Num 22]);
    ("runtimeerror", Num 10); ("sai", Num 11);
    ("same", Arr [Num 7; Num 8; Num 11; Num 13; Num 15; Num 18; Num 23; Num 24]);
    ("sampl", Arr [Num 7; Num 13; Num 15; Num 18; Num 20; Num 22; Num 23]);
    ("sample_audio_fil", Num 15);
    ("sample_r", Arr [Num 4; Num 7; Num 15; Num 18; Num 20; Num 22; Num 23]);
    ("sampler", Num 15); ("satisfi", Num 10); ("save", Arr [Num 15; Num 18; Num 23]);
    ("scalabl", Num 13); ("scalar", Num 18); ("scale", Num 24); ("scikit", Num 13);
    ("scipi", Arr [Num 10; Num 13; Num 23]); ("scott", Num 18);
    ("search", Arr [Num 12; Num 24]); ("sebastian", Num 14); ("sec", Num 13);
    ("second", Arr [Num 4; Num 7; Num 8; Num 11; Num 13; Num 15; Num 20; Num 23; Num 24]);
    ("section", Num 15); ("see", Arr [Num 7; Num 8; Num 10; Num 11; Num 12; Num 15; Num 23]);
    ("seealso", Num 15); ("select", Num 13);
    ("self", Arr [Num 8; Num 15; Num 18; Num 20; Num 23]); ("sens", Num 7); ("sensor", Num 18);
    ("separ", Arr [Num 7; Num 8; Num 11; Num 12; Num 13; Num 14; Num 15; Num 18; Num 20; Num 22; Num 23]);
    ("separarationbas", Arr [Num 12; Num 16]);
    ("separation_bas", Arr [Num 14; Num 18; Num 20; Num 22]); ("separation_class", Num 22);
    ("separationbas", Arr []); ("separationbasedecod", Num 22);
    ("seri", Arr [Num 8; Num 13; Num 15; Num 23]); ("serial", Num 22);
    ("set", Arr [Num 1; Num 3; Num 5; Num 7; Num 8; Num 10; Num 13; Num 14; Num 15; Num 20; Num 23]);
    ("set_active_region", Num 15); ("set_active_region_to_default", Num 15);
    ("settabl", Num 23); ("setup", Num 10); ("seung", Num 14);
    ("shape", Arr [Num 7; Num 8; Num 13; Num 23; Num 24]); ("share", Num 24); ("shat", Num 13);
    ("should", Arr [Num 8; Num 10; Num 13; Num 22; Num 23]); ("should_update_activ", Num 14);
    ("should_update_templ", Num 14); ("shouldnorm", Num 14); ("show", Num 23);
    ("show_interactive_plot", Num 23); ("shown", Num 23); ("side", Num 20); ("sig", Num 15);
    ("siganl", Num 13); ("signal1", Arr [Num 0; Num 7; Num 8]); ("signal1_lowpass", Num 8);
    ("signal1_lp", Num 8); ("signal2", Num 7); ("signal3", Num 7);
    ("signal", Arr [Num 1; Num 3; Num 5; Num 7; Num 8; Num 11; Num 13; Num 15; Num 18; Num 20; Num 23]);
    ("signal_dur", Arr [Num 7; Num 15]); ("signal_length", Arr [Num 7; Num 15]);
    ("signal_starting_posit", Num 15); ("signallength", Num 20); ("signatur", Num 8);
    ("sigpow", Arr []); ("sigrec", Arr []); ("sigspec", Arr []); ("sim", Arr []);
    ("sim_mat", Num 20); ("similar", Arr [Num 8; Num 13; Num 18; Num 20]);
    ("similarity_matrix", Num 20); ("similarity_threshold", Num 20); ("similarli", Num 7);
    ("simpl", Arr [Num 4; Num 7; Num 20]); ("simpli", Num 7); ("simultan", Num 20);
    ("simval", Num 13); ("simval_cross", Num 13); ("sin", Arr [Num 7; Num 23]);
    ("sinc", Arr [Num 8; Num 23]); ("sine", Num 23); ("sine_wav", Num 23);
    ("singl", Arr [Num 7; Num 8; Num 13; Num 14; Num 15; Num 23]); ("singular", Num 13);
    ("site", Num 10); ("situat", Num 23); ("size", Arr [Num 11; Num 15; Num 18]);
    ("slice", Arr [Num 11; Num 23]); ("slide", Num 13); ("smaller", Num 24); ("smat", Num 18);
    ("smooth", Num 18); ("societi", Num 20); ("soft", Num 20); ("solut", Num 10);
    ("some", Arr [Num 7; Num 8; Num 10; Num 11]); ("someth", Num 8); ("sometim", Num 10);
    ("somewher", Num 10); ("sort", Num 20); ("sound", Num 20); ("sourc", Arr []);
    ("sourcekernel", Num 13); ("specif", Arr [Num 10; Num 24]);
    ("specifi", Arr [Num 13; Num 14; Num 15; Num 23]); ("specparam", Num 13);
    ("spectral", Arr [Num 13; Num 23]); ("spectral_util", Arr []); ("spectrogram", Arr []);
    ("spectrum", Arr [Num 11; Num 20]); ("speech", Arr [Num 13; Num 18]); ("springer", Num 18);
    ("sqrt", Num 13); ("squar", Arr [Num 7; Num 15]); ("src1", Num 0); ("src2", Num 0);
    ("stack", Num 10); ("stackoverflow", Arr [Num 10; Num 23; Num 24]); ("stage", Num 13);
    ("stai", Num 23); ("standard", Arr []); ("stdin", Num 10); ("stereo", Arr [Num 7; Num 18]);
    ("stft", Arr []); ("stft_data", Arr [Num 8; Num 15]); ("stft_length", Arr [Num 8; Num 15]);
    ("stft_more_bin", Num 23);
    ("stft_param", Arr [Num 1; Num 4; Num 15; Num 18; Num 20; Num 22]);
    ("stft_with_reflect", Num 23); ("stftparam", Arr []); ("stftparm", Num 23);
    ("still", Arr [Num 11; Num 23]); ("stop", Num 24);
    ("store", Arr [Num 1; Num 3; Num 5; Num 8; Num 15]);
    ("str", Arr [Num 1; Num 15; Num 18; Num 22; Num 23]); ("strength", Num 11);
    ("string", Arr [Num 10; Num 13; Num 15; Num 20; Num 22; Num 23; Num 24]);
    ("structur", Arr [Num 10; Num 13]); ("sub", Arr [Num 13; Num 15]);
    ("subtract", Arr [Num 7; Num 15]); ("sudo", Num 10); ("sum", Num 15); ("support", Num 13);
    ("suppress", Num 23); ("svd", Num 13); ("symmetr", Num 20);
    ("system", Arr [Num 14; Num 20]); ("take", Arr [Num 20; Num 23]); ("taken", Num 8);
    ("taper", Num 23); ("target", Num 10); ("task", Num 7);
    ("techniqu", Arr [Num 11; Num 18; Num 20]); ("tell", Num 7); ("templat", Num 14);
    ("tempor", Num 15); ("termin", Num 10); ("test", Num 8); ("tfcoords1", Num 13);
    ("tfcoords2", Num 13); ("than", Arr [Num 10; Num 15; Num 23]);
    ("thei", Arr [Num 7; Num 8; Num 13]); ("them", Arr [Num 8; Num 10; Num 11; Num 23]);
    ("thi", Arr [Num 7; Num 8; Num 10; Num 11; Num 12; Num 13; Num 14; Num 15; Num 20; Num 22; Num 23; Num 24]);
    ("thing", Arr [Num 7; Num 11; Num 15]); ("think", Num 11); ("third", Arr [Num 8; Num 13]);
    ("those", Arr [Num 10; Num 11; Num 23]); ("three", Num 13);
    ("three_d_plot", Arr [Num 1; Num 18]); ("threshold", Arr [Num 18; Num 20; Num 24]);
    ("through", Arr [Num 8; Num 13; Num 15]); ("thrown", Num 15); ("thusli", Num 8);
    ("time", Arr [Num 7; Num 8; Num 11; Num 13; Num 15; Num 18; Num 20; Num 23]);
    ("time_vector", Arr [Num 7; Num 15]); ("timeseri", Arr []);
    ("timestamp", Arr [Num 7; Num 15]); ("titl", Num 23); ("tkagg", Num 10);
    ("to_json", Arr [Num 15; Num 22; Num 23]); ("to_mono", Arr [Num 7; Num 8; Num 15]);
    ("top", Num 23); ("traceback", Num 10); ("track", Num 20); ("trade", Num 8);
    ("transact", Arr [Num 13; Num 18]); ("transform", Arr [Num 8; Num 15; Num 23]);
    ("trick", Num 8); ("truncat", Arr [Num 8; Num 13; Num 15; Num 24]);
    ("truncate_sampl", Num 15); ("truncate_second", Num 15); ("tune", Num 12);
    ("tupl", Num 24); ("turn", Num 24); ("tvec", Arr []); ("twice", Arr [Num 11; Num 13]);
    ("two", Arr [Num 7; Num 10; Num 11; Num 13; Num 14; Num 15; Num 18; Num 24]);
    ("twodsmooth", Num 18); ("type", Arr [Num 11; Num 13; Num 20; Num 23]); ("unalt", Num 8);
    ("under", Num 10); ("understand", Num 7); ("uniform", Num 11); ("univers", Num 12);
    ("unlink", Num 23); ("unmix", Num 18); ("until", Num 15); ("upcom", Num 7);
    ("updat", Arr [Num 14; Num 20; Num 23]); ("update_period", Arr [Num 4; Num 20]);
    ("upon", Arr [Num 15; Num 23]); ("upper", Num 24); ("us20130064379", Num 20);
    ("use_librosa", Arr [Num 8; Num 15; Num 23]);
    ("user", Arr [Num 8; Num 12; Num 13; Num 14; Num 15; Num 23]); ("userdef", Num 13);
    ("usual", Num 10); ("util", Arr []);
    ("valu", Arr [Num 7; Num 8; Num 11; Num 13; Num 15; Num 18; Num 20; Num 23; Num 24]);
    ("variant", Num 20);
    ("vector", Arr [Num 7; Num 8; Num 13; Num 14; Num 18; Num 20; Num 23]); ("venv", Num 10);
    ("verbos", Num 15); ("version", Arr []); ("vertic", Arr [Num 13; Num 15]); ("via", Num 18);
    ("voic", Num 20); ("wai", Arr [Num 7; Num 8; Num 10; Num 11; Num 23]); ("walk", Num 15);
    ("want", Arr [Num 7; Num 8; Num 11; Num 23; Num 24]); ("warn", Num 10);
    ("wav", Arr [Num 0; Num 1; Num 3; Num 4; Num 5; Num 7; Num 8; Num 11; Num 13; Num 15; Num 18; Num 20]);
    ("wave", Num 23); ("waveform", Num 15); ("weight", Num 13);
    ("well", Arr [Num 8; Num 12; Num 23]); ("wfunc", Num 13);
    ("what", Arr [Num 8; Num 10; Num 11; Num 15; Num 23]);
    ("when", Arr [Num 7; Num 8; Num 10; Num 11; Num 15; Num 23]);
    ("where", Arr [Num 10; Num 11; Num 13; Num 15; Num 23]); ("whether", Arr [Num 13; Num 18]);
    ("which", Arr [Num 10; Num 13; Num 14; Num 15; Num 20; Num 24]);
    ("whole", Arr [Num 13; Num 15; Num 18]); ("whoop", Num 8); ("why", Num 11);
    ("wide", Arr []); ("widowlength", Num 13); ("width", Num 13); ("win", Num 20);
    ("win_length", Num 23); ("win_typ", Num 23);
    ("window", Arr [Num 13; Num 15; Num 18; Num 20; Num 23]);
    ("window_length", Arr [Num 8; Num 15; Num 20; Num 23]); ("window_overlap", Num 23);
    ("window_typ", Arr [Num 8; Num 15; Num 20; Num 23]);
    ("windowattribut", Arr [Num 18; Num 20]); ("windowlength", Num 13);
    ("windowtyp", Arr [Num 13; Num 20; Num 23]); ("wise", Arr [Num 15; Num 18]);
    ("within", Arr [Num 7; Num 23]); ("without", Arr [Num 8; Num 23]); ("won", Num 20);
    ("work", Arr [Num 7; Num 8; Num 10; Num 11; Num 23; Num 24]);
    ("would", Arr [Num 7; Num 8; Num 10; Num 13]); ("wrapper", Num 8);
    ("write", Arr [Num 3; Num 5; Num 7; Num 8; Num 11; Num 15]);
    ("write_audio_to_fil", Arr [Num 0; Num 1; Num 3; Num 5; Num 7; Num 8; Num 11; Num 15]);
    ("wrt", Arr [Num 18; Num 23]); ("wth", Num 15); ("x86_64", Num 10); ("xhat", Num 18);
    ("yet", Num 15); ("yilmaz", Num 18); ("you", Arr []);
    ("your", Arr [Num 7; Num 10; Num 23]); ("zafar", Arr [Num 13; Num 20]);
    ("zero", Arr [Num 13; Num 15; Num 23]); ("zero_pad", Num 15)
  ].

(** The [titles] array: the page title of the docname at the same index. *)
Definition titles : value :=
  Arr [
    Str "AduioSignal example"; Str "DUET example"; Str "nussl Examples"; Str "REPET example";
    Str "Finding the repeating period of a song using REPET"; Str "REPET-SIM example";
    Str "The AudioSignal Object"; Str "AudioSignal Basics"; Str "Spectrograms and STFTs";
    Str "Getting Started"; Str "Installation"; Str "Using REPET"; Str "nussl"; Str "KAM Class";
    Str "Nmf Class"; Str "AudioSignal Class"; Str "nussl Classes"; Str "constants.py";
    Str "Duet Class"; Str "Modules"; Str "Repet Class"; Str "RepetSim Class";
    Str "SeparationBase Class"; Str "spectral_utils.py"; Str "utils.py"
  ].

(** The [titleterms] table: a stemmed word of a page title to its docname indices. *)
Definition titleterms : value :=
  Obj [
    ("class", Arr [Num 13; Num 14; Num 15; Num 16; Num 18; Num 20; Num 21; Num 22]);
    ("aduiosign", Num 0); ("all", Num 11); ("anaconda", Num 10); ("arrai", Num 7);
    ("audiosign", Arr [Num 6; Num 7; Num 15]); ("basic", Arr [Num 7; Num 8]); ("code", Num 12);
    ("constant", Num 17); ("contact", Arr [Num 10; Num 12]); ("correct", Num 10);
    ("document", Num 12); ("download", Num 10); ("duet", Arr [Num 1; Num 18]);
    ("exampl", Arr [Num 0; Num 1; Num 2; Num 3; Num 5; Num 12]); ("file", Num 7);
    ("find", Num 4); ("first", Num 12); ("from", Arr [Num 7; Num 10]);
    ("get", Arr [Num 9; Num 11]); ("have", Num 10); ("indic", Num 12); ("initi", Num 7);
    ("instal", Num 10); ("instruct", Arr []); ("introduct", Num 11); ("invers", Num 8);
    ("issu", Num 10); ("kam", Num 13); ("make", Num 10); ("manipul", Num 7);
    ("matplotlib", Num 10); ("modul", Num 19); ("nmf", Num 14); ("numpi", Num 7);
    ("nussl", Arr [Num 2; Num 12; Num 16]); ("object", Arr [Num 6; Num 8]); ("other", Num 7);
    ("paramet", Num 8); ("period", Arr [Num 4; Num 11]); ("pip", Num 10);
    ("repeat", Arr [Num 4; Num 11]); ("repet", Arr [Num 3; Num 4; Num 5; Num 11; Num 20]);
    ("repetsim", Num 21); ("requir", Num 10); ("result", Num 11); ("run", Num 11);
    ("separationbas", Num 22); ("sim", Num 5); ("song", Num 4); ("sourc", Num 10);
    ("spectral_util", Num 23); ("spectrogram", Num 8); ("start", Num 9); ("step", Num 12);
    ("stft", Num 8); ("stftparam", Num 8); ("sure", Num 10); ("tabl", Num 12);
    ("togeth", Num 11); ("troubleshoot", Arr [Num 10; Num 12]); ("util", Num 24);
    ("version", Num 10); ("you", Num 10)
  ].

(** The argument of the call [Search.setIndex({...})], keys in source order. *)
Definition searchindex : value :=
  Obj [("envversion", Num 47); ("filenames", filenames); ("objects", objects);
       ("objnames", objnames); ("objtypes", objtypes); ("terms", terms);
       ("titles", titles); ("titleterms", titleterms)].

(** ** Reading the tables of an index *)

Section Tables.

(** The top-level object of an index; the definitions of this section
    read its tables the way the search script does. *)
Variable ix : value.

(** The properties of the table stored under the key [k], and the
    elements of the array stored under [k]; empty when the key is absent. *)
Definition table (k : string) : list (string * value) :=
  match get k ix with
  | Some o => entries o
  | None => []
  end.

Definition sequence (k : string) : list value :=
  match get k ix with
  | Some a => elements a
  | None => []
  end.

(** Every member entry of the object table, as (owner, member, entry). *)
Definition members : list (string * string * value) :=
  flat_map
    (fun om => map (fun me => (fst om, fst me, snd me)) (entries (snd om)))
    (table "objects").

(** The member entries of one owner: [objects[owner]]. *)
Definition resolve (owner : string) : option (list (string * value)) :=
  match lookup owner (table "objects") with
  | Some ms => Some (entries ms)
  | None => None
  end.

(** Modelled from the spec: the normalisation of a terms value by a
    consumer of the index, which the source does not contain: a value is
    a single index or a list, and the scalar [v] is normalised to the
    one-element list [[v]]. *)
Definition normalize (p : value) : list value :=
  match p with
  | Arr l => l
  | v => [v]
  end.

(** The posting list a consumer obtains for a term: [terms[t]] normalised,
    empty for a term that is no key of the table. *)
Definition posting (t : string) : list value :=
  match lookup t (table "terms") with
  | Some p => normalize p
  | None => []
  end.

(** [i] is a position of the [filenames] array. *)
Definition in_range (i : Z) : bool :=
  (0 <=? i) && (i <? Z.of_nat (List.length (sequence "filenames"))).

(** The docname indices the object table refers to (the first component of
    each member entry) and those of the terms table (each scalar and each
    element of a list). *)
Definition object_indices : list Z :=
  flat_map
    (fun m => match at_index 0 (snd m) with
              | Some (Num d) => [d]
              | _ => []
              end)
    members.

Definition numbers (l : list value) : list Z :=
  flat_map (fun v => match v with Num i => [i] | _ => [] end) l.

Definition term_indices : list Z :=
  flat_map (fun tp => numbers (normalize (snd tp))) (table "terms").

(** The docname indices of the title terms, read like those of the terms,
    and the docname indices the titles are stored under: the positions of a
    [titles] array, or the keys of a [titles] mapping. *)
Definition titleterm_indices : list Z :=
  flat_map (fun tp => numbers (normalize (snd tp))) (table "titleterms").

Definition positions (n : nat) : list Z := map Z.of_nat (seq 0 n).

Definition title_indices : list Z :=
  match get "titles" ix with
  | Some (Arr l) => positions (List.length l)
  | Some (Obj ps) =>
      flat_map (fun kv => match index_of_key (fst kv) with
                          | Some i => [i]
                          | None => []
                          end) ps
  | _ => []
  end.

(** Every docname index of the structure: those of [objects], [terms],
    [titleterms] and [titles]. *)
Definition docname_indices : list Z :=
  object_indices ++ term_indices ++ titleterm_indices ++ title_indices.

(** Some docname index of the structure is no position of [filenames]. *)
Definition has_dangling : bool :=
  existsb (fun i => negb (in_range i)) docname_indices.

(** The value in index position is an integer that is a position of
    [filenames]. *)
Definition is_index (v : value) : bool :=
  match v with
  | Num i => in_range i
  | _ => false
  end.

Definition valid_index (v : value) : Prop :=
  exists i, v = Num i /\ 0 <= i < Z.of_nat (List.length (sequence "filenames")).

(** A terms value refers to positions of [filenames] only: it is one
    valid index, or an array of valid indices. *)
Definition is_posting (p : value) : bool :=
  match p with
  | Num i => in_range i
  | Arr l => forallb is_index l
  | _ => false
  end.

Definition valid_posting (p : value) : Prop :=
  match p with
  | Num i => 0 <= i < Z.of_nat (List.length (sequence "filenames"))
  | Arr l => Forall valid_index l
  | _ => False
  end.

End Tables.

(** A list of integers in strictly increasing order. *)
Fixpoint increasing (l : list Z) : bool :=
  match l with
  | [] => true
  | a :: r =>
      match r with
      | [] => true
      | b :: _ => (a <? b) && increasing r
      end
  end.

Definition is_num (v : value) : bool :=
  match v with
  | Num _ => true
  | _ => false
  end.

Definition strings (l : list value) : list string :=
  flat_map (fun v => match v with Str s => [s] | _ => [] end) l.

(** A list of keys without a repetition. *)
Fixpoint distinct (l : list string) : bool :=
  match l with
  | [] => true
  | k :: r => negb (existsb (String.eqb k) r) && distinct r
  end.

(** The member entry has a kind code and a priority code that are keys of
    the two lookup tables. *)
Definition codes_known (names types : value) (e : value) : bool :=
  match at_index 1 e, at_index 2 e with
  | Some (Num k), Some (Num p) =>
      existsb (String.eqb (key_of_code k)) (keys types)
      && existsb (String.eqb (key_of_code k)) (keys names)
      && existsb (String.eqb (key_of_code p)) (keys types)
      && existsb (String.eqb (key_of_code p)) (keys names)
  | _, _ => false
  end.

(** A list-valued posting is an array of integers in increasing order. *)
Definition sorted_posting (p : value) : bool :=
  match p with
  | Arr l => forallb is_num l && increasing (numbers l)
  | _ => true
  end.

(** ** The loader [Search.setIndex]

    The source calls [Search.setIndex] and does not define it.  The module
    below follows the written description of the loader: it parses the raw
    structure into the docname table, the object table and the terms table
    (with the two lookup tables the object table is read against, and with
    the titles and the title terms when the structure has them), and
    detects, at load time, a malformed artifact, a dangling reference and an
    unknown kind or priority code. *)

Module Search.

(** Modelled from the spec: the error taxonomy of the loader, which the
    source does not contain: (a) malformed artifact, (b) dangling
    reference, (c) unknown kind/priority code. *)
Inductive LoadError : Type :=
| MalformedArtifact
| DanglingReference
| UnknownCode.

(** Modelled from the spec: the result of the absent loader: the loaded
    value, or the kinds of error detected at load time.  All kinds that are
    detected are reported; none takes precedence over another. *)
Definition Except (A : Type) : Type := (list LoadError + A)%type.

Definition throw {A : Type} (errs : list LoadError) : Except A := inl errs.
Definition ret {A : Type} (a : A) : Except A := inr a.
Definition bind {A B : Type} (m : Except A) (f : A -> Except B) : Except B :=
  match m with
  | inl e => inl e
  | inr a => f a
  end.

Notation "x <- m ;; k" := (bind m (fun x => k))
  (at level 61, m at next level, right associativity).

(** Modelled from the spec: the ObjectEntry entity of the absent loader:
    owning docname index, object-kind code, priority flag and short
    signature. *)
Record ObjectEntry : Type := mkEntry {
  docname_index : Z;
  kind_code : Z;
  priority_code : Z;
  short_signature : string
}.

(** Modelled from the spec: what the absent loader builds: the docname
    table, the object table and the terms table (every posting a list),
    with the [envversion] integer, the [objnames]/[objtypes] lookup tables
    of the format, the titles table (docname index to page title) and the
    title terms the artifact carries beside the terms. *)
Record Index : Type := mkIndex {
  version : Z;
  docnames : list string;
  object_table : list (string * list (string * ObjectEntry));
  kind_names : list (string * (string * string * string));
  kind_types : list (string * string);
  term_table : list (string * list Z);
  title_table : list (Z * string);
  title_terms : list (string * list Z)
}.

(** *** Decoding the raw structure *)

Fixpoint traverse {A B : Type} (f : A -> option B) (l : list A) : option (list B) :=
  match l with
  | [] => Some []
  | a :: r =>
      match f a, traverse f r with
      | Some b, Some bs => Some (b :: bs)
      | _, _ => None
      end
  end.

Definition as_num (v : value) : option Z :=
  match v with
  | Num n => Some n
  | _ => None
  end.

Definition as_str (v : value) : option string :=
  match v with
  | Str s => Some s
  | _ => None
  end.

Definition as_list {A : Type} (f : value -> option A) (v : value) : option (list A) :=
  match v with
  | Arr l => traverse f l
  | _ => None
  end.

Definition as_prop {A : Type} (f : value -> option A) (kv : string * value)
  : option (string * A) :=
  match f (snd kv) with
  | Some a => Some (fst kv, a)
  | None => None
  end.

Definition as_table {A : Type} (f : value -> option A) (v : value)
  : option (list (string * A)) :=
  match v with
  | Obj ps => traverse (as_prop f) ps
  | _ => None
  end.

(** Modelled from the spec: the member entry
    [[docnameIndex, kindCode, priorityCode, shortSignature]] as the absent
    loader reads it. *)
Definition as_entry (v : value) : option ObjectEntry :=
  match v with
  | Arr [Num d; Num k; Num p; Str s] => Some (mkEntry d k p s)
  | _ => None
  end.

(** Modelled from the spec: an [objnames] value
    [[domain, kindLabel, humanLabel]] as the absent loader reads it. *)
Definition as_name (v : value) : option (string * string * string) :=
  match v with
  | Arr [Str d; Str k; Str h] => Some (d, k, h)
  | _ => None
  end.

(** Modelled from the spec: a [terms] value as the absent loader reads it,
    a single index or a list, normalised to a list at load. *)
Definition as_posting (v : value) : option (list Z) :=
  match v with
  | Num i => Some [i]
  | Arr l => traverse as_num l
  | _ => None
  end.

(** One entry of a [titles] mapping: the key is the decimal writing of a
    docname index, the value the title. *)
Definition as_title (kv : string * value) : option (Z * string) :=
  match index_of_key (fst kv), as_str (snd kv) with
  | Some i, Some s => Some (i, s)
  | _, _ => None
  end.

(** Modelled from the spec: the titles table as the absent loader reads
    it, a mapping from docname index to page title: written as a mapping
    whose keys are the indices, or as an array whose positions are. *)
Definition as_titles (v : value) : option (list (Z * string)) :=
  match v with
  | Arr l => option_map (combine (positions (List.length l))) (traverse as_str l)
  | Obj ps => traverse as_title ps
  | _ => None
  end.

(** Modelled from the spec: a required top-level key of the absent loader;
    the artifact is malformed when the key is missing or its value has not
    the shape of the format. *)
Definition required {A : Type} (k : string) (f : value -> option A) (raw : value)
  : Except A :=
  match get k raw with
  | Some v =>
      match f v with
      | Some a => ret a
      | None => throw [MalformedArtifact]
      end
  | None => throw [MalformedArtifact]
  end.

(** Modelled from the spec: an optional top-level key of the absent loader:
    a missing key gives the empty table, a value that has not the shape of
    the format is malformed. *)
Definition optional {A : Type} (k : string) (f : value -> option (list A)) (raw : value)
  : Except (list A) :=
  match get k raw with
  | Some v =>
      match f v with
      | Some a => ret a
      | None => throw [MalformedArtifact]
      end
  | None => ret []
  end.

(** Modelled from the spec: the parsing step of the absent loader: given
    the raw artifact, parse it into the tables; it fails if required keys
    are absent.  [titles] is optional; so is [titleterms], which the
    artifact has beside the keys of the format and which is read like
    [terms]. *)
Definition parse (raw : value) : Except Index :=
  v <- required "envversion" as_num raw ;;
  fs <- required "filenames" (as_list as_str) raw ;;
  os <- required "objects" (as_table (as_table as_entry)) raw ;;
  ns <- required "objnames" (as_table as_name) raw ;;
  ts <- required "objtypes" (as_table as_str) raw ;;
  ps <- required "terms" (as_table as_posting) raw ;;
  tl <- optional "titles" as_titles raw ;;
  tt <- optional "titleterms" (as_table as_posting) raw ;;
  ret (mkIndex v fs os ns ts ps tl tt).

(** *** Checking the loaded tables *)

Definition entries_of (ix : Index) : list ObjectEntry :=
  flat_map (fun om => map snd (snd om)) (object_table ix).

(** Every docname index of the loaded tables: those of the object table,
    of the postings of the terms and of the title terms, and those the
    titles are stored under. *)
Definition references (ix : Index) : list Z :=
  map docname_index (entries_of ix) ++ flat_map snd (term_table ix)
    ++ flat_map snd (title_terms ix) ++ map fst (title_table ix).

Definition in_bounds (ix : Index) (i : Z) : bool :=
  (0 <=? i) && (i <? Z.of_nat (List.length (docnames ix))).

Definition has_key {A : Type} (k : string) (t : list (string * A)) : bool :=
  existsb (fun kv => String.eqb k (fst kv)) t.

(** The code, converted to a key, is a key of both lookup tables. *)
Definition known_code (ix : Index) (c : Z) : bool :=
  has_key (key_of_code c) (kind_types ix) && has_key (key_of_code c) (kind_names ix).

Definition codes (ix : Index) : list Z :=
  flat_map (fun e => [kind_code e; priority_code e]) (entries_of ix).

(** Modelled from the spec: what the absent loader detects on the parsed
    tables: a docname index out of range is a dangling reference, a kind or
    priority code absent from the lookup tables is an unknown code.  Each
    kind is reported when it is found, whatever else is found. *)
Definition diagnose (ix : Index) : list LoadError :=
  (if forallb (in_bounds ix) (references ix) then [] else [DanglingReference])
    ++ (if forallb (known_code ix) (codes ix) then [] else [UnknownCode]).

(** Modelled from the spec: the checks of the absent loader: the index is
    loaded when nothing is detected. *)
Definition check (ix : Index) : Except Index :=
  match diagnose ix with
  | [] => ret ix
  | errs => throw errs
  end.

(** Modelled from the spec: the absent loader [Search.setIndex]: parse the
    raw artifact, then check it; all three kinds of error are detected at
    load time. *)
Definition setIndex (raw : value) : Except Index :=
  ix <- parse raw ;;
  check ix.

(** *** Writing the tables back *)

Definition of_entry (e : ObjectEntry) : value :=
  Arr [Num (docname_index e); Num (kind_code e); Num (priority_code e);
       Str (short_signature e)].

Definition of_name (n : string * string * string) : value :=
  Arr [Str (fst (fst n)); Str (snd (fst n)); Str (snd n)].

Definition of_table {A : Type} (f : A -> value) (t : list (string * A)) : value :=
  Obj (map (fun kv => (fst kv, f (snd kv))) t).

Definition of_titles (t : list (Z * string)) : value :=
  Obj (map (fun it => (key_of_code (fst it), Str (snd it))) t).

(** Modelled from the spec: the re-serialisation of a loaded index in the
    format of the artifact, which the source does not contain; every
    posting is written as a list and the titles as a mapping from docname
    index to title. *)
Definition serialize (ix : Index) : value :=
  Obj [("envversion", Num (version ix));
       ("filenames", Arr (map Str (docnames ix)));
       ("objects", of_table (of_table of_entry) (object_table ix));
       ("objnames", of_table of_name (kind_names ix));
       ("objtypes", of_table Str (kind_types ix));
       ("terms", of_table (fun l => Arr (map Num l)) (term_table ix));
       ("titles", of_titles (title_table ix));
       ("titleterms", of_table (fun l => Arr (map Num l)) (title_terms ix))].

End Search.

(** ** Sample structures *)

(** A structure in the format whose only member entry has the kind code 7,
    which is no key of its lookup tables; its docname indices are in range. *)
Definition unknown_kind_index : value :=
  Obj [("envversion", Num 47);
       ("filenames", Arr [Str "index"]);
       ("objects", Obj [("", Obj [("nussl", Arr [Num 0; Num 7; Num 0; Str "-"])])]);
       ("objnames", Obj [("0", Arr [Str "py"; Str "module"; Str "Python module"])]);
       ("objtypes", Obj [("0", Str "py:module")]);
       ("terms", Obj [("nussl", Num 0)])].

(** The same structure with a known kind code and a posting that refers to
    the docname index 1, one past the end of [filenames]. *)
Definition dangling_index : value :=
  Obj [("envversion", Num 47);
       ("filenames", Arr [Str "index"]);
       ("objects", Obj [("", Obj [("nussl", Arr [Num 0; Num 0; Num 0; Str "-"])])]);
       ("objnames", Obj [("0", Arr [Str "py"; Str "module"; Str "Python module"])]);
       ("objtypes", Obj [("0", Str "py:module")]);
       ("terms", Obj [("nussl", Arr [Num 0; Num 1])])].

(** A structure without the [terms] key. *)
Definition truncated_index : value :=
  Obj [("envversion", Num 47);
       ("filenames", Arr [Str "index"]);
       ("objects", Obj []);
       ("objnames", Obj []);
       ("objtypes", Obj [])].

(** A structure whose objects and terms are in range, with a title stored
    under the docname index 99. *)
Definition dangling_title_index : value :=
  Obj [("envversion", Num 47);
       ("filenames", Arr [Str "index"]);
       ("titles", Obj [("99", Str "nussl")]);
       ("objects", Obj [("", Obj [("nussl", Arr [Num 0; Num 0; Num 0; Str "-"])])]);
       ("objnames", Obj [("0", Arr [Str "py"; Str "module"; Str "Python module"])]);
       ("objtypes", Obj [("0", Str "py:module")]);
       ("terms", Obj [("nussl", Num 0)])].

(** A structure whose objects and terms are in range, with a title term
    that refers to the docname index 57. *)
Definition dangling_titleterm_index : value :=
  Obj [("envversion", Num 47);
       ("filenames", Arr [Str "index"]);
       ("objects", Obj [("", Obj [("nussl", Arr [Num 0; Num 0; Num 0; Str "-"])])]);
       ("objnames", Obj [("0", Arr [Str "py"; Str "module"; Str "Python module"])]);
       ("objtypes", Obj [("0", Str "py:module")]);
       ("terms", Obj [("nussl", Num 0)]);
       ("titleterms", Obj [("nussl", Arr [Num 0; Num 57])])].

(** A structure with a posting out of range and an unknown kind code. *)
Definition doubly_wrong_index : value :=
  Obj [("envversion", Num 47);
       ("filenames", Arr [Str "index"]);
       ("objects", Obj [("", Obj [("nussl", Arr [Num 0; Num 7; Num 0; Str "-"])])]);
       ("objnames", Obj [("0", Arr [Str "py"; Str "module"; Str "Python module"])]);
       ("objtypes", Obj [("0", Str "py:module")]);
       ("terms", Obj [("nussl", Arr [Num 0; Num 1])])].

(** ** Member entries, postings and names *)

(** The owner key, the member key and the entry of a member of the object
    table. *)
Definition owner_of (m : string * string * value) : string := fst (fst m).
Definition name_of (m : string * string * value) : string := snd (fst m).
Definition entry_of (m : string * string * value) : value := snd m.

(** [e[i]] when it is a number, and when it is a string. *)
Definition number_at (i : nat) (e : value) : option Z :=
  match at_index i e with
  | Some (Num n) => Some n
  | _ => None
  end.

Definition string_at (i : nat) (e : value) : option string :=
  match at_index i e with
  | Some (Str s) => Some s
  | _ => None
  end.

(** The docname indices written in a value of [terms] or [titleterms]: the
    scalar itself, or the elements of the array. *)
Definition indices (p : value) : list Z :=
  match p with
  | Num i => [i]
  | Arr l => numbers l
  | _ => []
  end.

(** The dotted name of a member: the owner key, a dot and the member key;
    under the empty owner key, the member key alone. *)
Definition full_name (owner member : string) : string :=
  match owner with
  | EmptyString => member
  | _ => owner ++ "." ++ member
  end.

(** The kind code of the entry is one of [ks]. *)
Definition kind_in (ks : list Z) (e : value) : bool :=
  match number_at 1 e with
  | Some k => existsb (Z.eqb k) ks
  | None => false
  end.

(** The entry is a module (kind 0) or a class (kind 1): the kinds that have
    members of their own. *)
Definition is_container (e : value) : bool := kind_in [0; 1] e.

(** The docname a docname index stands for: [filenames[d]]. *)
Definition docname_at (ix : value) (d : Z) : option string :=
  if d <? 0 then None
  else match nth_error (sequence ix "filenames") (Z.to_nat d) with
       | Some (Str f) => Some f
       | _ => None
       end.

(** ASCII lower case, as [toLowerCase] acts on the keys of the tables. *)
Definition lower_ascii (c : ascii) : ascii :=
  let n := nat_of_ascii c in
  if ((65 <=? n) && (n <=? 90))%nat then ascii_of_nat (n + 32) else c.

Fixpoint to_lower (s : string) : string :=
  match s with
  | EmptyString => EmptyString
  | String c r => String (lower_ascii c) (to_lower r)
  end.

(** The value of kind, priority and signature of an entry agree: a module
    has priority 0 and the signature [-], any other kind has priority 1 and
    the empty signature. *)
Definition entry_coherent (e : value) : bool :=
  match number_at 1 e, number_at 2 e, string_at 3 e with
  | Some k, Some p, Some s =>
      if k =? 0 then (p =? 0) && String.eqb s "-"
      else (p =? 1) && String.eqb s EmptyString
  | _, _, _ => false
  end.

(** ** Auxiliary facts *)

Lemma Forall_of_forallb {A : Type} (P : A -> Prop) (f : A -> bool) (l : list A) :
  (forall a, f a = true -> P a) -> forallb f l = true -> Forall P l.
Proof.
  intros HP Hall. apply Forall_forall. intros a Ha.
  apply HP. rewrite forallb_forall in Hall. now apply Hall.
Qed.

Lemma In_of_existsb (k : string) (l : list string) :
  existsb (String.eqb k) l = true -> In k l.
Proof.
  intros H. apply existsb_exists in H. destruct H as [x [Hx Heq]].
  apply String.eqb_eq in Heq. now subst.
Qed.

Lemma distinct_NoDup (l : list string) : distinct l = true -> NoDup l.
Proof.
  induction l as [|k r IH]; simpl; intros H.
  - constructor.
  - apply andb_true_iff in H. destruct H as [Hk Hr].
    constructor; [|now apply IH].
    intros Hin. apply negb_true_iff in Hk.
    assert (existsb (String.eqb k) r = true) as E.
    { apply existsb_exists. exists k. split; [assumption|apply String.eqb_refl]. }
    congruence.
Qed.

Lemma numbers_map_Num (l : list value) :
  forallb is_num l = true -> l = map Num (numbers l).
Proof.
  induction l as [|v r IH]; simpl; intros H; [reflexivity|].
  apply andb_true_iff in H. destruct H as [Hv Hr].
  destruct v; try discriminate. simpl. f_equal. now apply IH.
Qed.

Lemma increasing_lower_bound (a : Z) (l : list Z) :
  increasing (a :: l) = true -> Forall (Z.lt a) l.
Proof.
  revert a. induction l as [|b r IH]; intros a H; [constructor|].
  change (((a <? b) && increasing (b :: r))%bool = true) in H.
  apply andb_true_iff in H. destruct H as [Hab Hr].
  apply Z.ltb_lt in Hab. constructor; [assumption|].
  specialize (IH b Hr). eapply Forall_impl; [|exact IH].
  intros c Hc. lia.
Qed.

Lemma increasing_sorted (l : list Z) :
  increasing l = true -> StronglySorted Z.lt l.
Proof.
  induction l as [|a r IH]; intros H; [constructor|].
  constructor.
  - apply IH. destruct r as [|b r']; [reflexivity|].
    change (((a <? b) && increasing (b :: r'))%bool = true) in H.
    now apply andb_true_iff in H.
  - now apply increasing_lower_bound.
Qed.

Lemma sorted_NoDup (l : list Z) : StronglySorted Z.lt l -> NoDup l.
Proof.
  induction 1 as [|a r Hr IH Ha]; constructor; [|assumption].
  intros Hin. rewrite Forall_forall in Ha. specialize (Ha a Hin). lia.
Qed.

Lemma is_index_valid (ix v : value) : is_index ix v = true -> valid_index ix v.
Proof.
  destruct v as [i| | |]; simpl; try discriminate.
  unfold in_range. intros H. apply andb_true_iff in H. destruct H as [H0 H1].
  apply Z.leb_le in H0. apply Z.ltb_lt in H1. exists i. split; [reflexivity|lia].
Qed.

Lemma is_posting_valid (ix p : value) : is_posting ix p = true -> valid_posting ix p.
Proof.
  destruct p as [i| |l|]; simpl; try discriminate.
  - unfold in_range. intros H. apply andb_true_iff in H. destruct H as [H0 H1].
    apply Z.leb_le in H0. apply Z.ltb_lt in H1. lia.
  - apply Forall_of_forallb. apply is_index_valid.
Qed.

(** The tables of the literal are the tables of the index. *)
Lemma searchindex_tables :
  get "filenames" searchindex = Some filenames /\
  get "objects" searchindex = Some objects /\
  get "objnames" searchindex = Some objnames /\
  get "objtypes" searchindex = Some objtypes /\
  get "terms" searchindex = Some terms /\
  get "titles" searchindex = Some titles /\
  get "titleterms" searchindex = Some titleterms.
Proof. repeat split; reflexivity. Qed.

(** No key is written twice: in no table does the reading order matter. *)
Lemma keys_distinct :
  NoDup (keys searchindex) /\ NoDup (keys terms) /\ NoDup (keys titleterms) /\
  NoDup (keys objnames) /\ NoDup (keys objtypes) /\ NoDup (keys objects) /\
  Forall (fun om => NoDup (keys (snd om))) (entries objects).
Proof.
  repeat split; try (apply distinct_NoDup; vm_compute; reflexivity).
  apply (Forall_of_forallb _ (fun om => distinct (keys (snd om)))).
  - intros om. apply distinct_NoDup.
  - vm_compute. reflexivity.
Qed.

Lemma filenames_length : List.length (sequence searchindex "filenames") = 25%nat.
Proof. reflexivity. Qed.

(** ** The tables of the artifact *)

(** C1, as stated, fails: the term [stft] is a key of the terms table whose
    value is the empty list, so the result set is empty and the index 23 of
    [src/spectral_utils] is not in it. *)
Lemma stft_posting_lacks_spectral_utils :
  exists p, get "stft" terms = Some p /\ elements p = [] /\ ~ In (Num 23) (elements p).
Proof.
  exists (Arr []). split; [reflexivity|]. split; [reflexivity|]. intros [].
Qed.

(** C1, amended: [stft] is a key of the terms table and its value is the
    empty list, which does not contain 23, the position of
    [src/spectral_utils] in [filenames]; the term is indexed in
    [titleterms], which maps it to 8, the position of
    [getting_started/audio_signal_stft]. *)
Theorem stft_posting_empty :
  get "stft" terms = Some (Arr []) /\
  at_index 23 filenames = Some (Str "src/spectral_utils") /\
  get "stft" titleterms = Some (Num 8) /\
  at_index 8 filenames = Some (Str "getting_started/audio_signal_stft").
Proof. repeat split; vm_compute; reflexivity. Qed.

(** C2: resolving the qualified name [audio_signal.AudioSignal] against the
    object table returns a member list that includes the member names
    [stft], [istft], [to_json] and [from_json]. *)
Theorem AudioSignal_members :
  exists ms,
    resolve searchindex "audio_signal.AudioSignal" = Some ms /\
    In "stft" (map fst ms) /\ In "istft" (map fst ms) /\
    In "to_json" (map fst ms) /\ In "from_json" (map fst ms).
Proof.
  eexists. split; [vm_compute; reflexivity|].
  repeat split; apply In_of_existsb; vm_compute; reflexivity.
Qed.

(** C3: [filenames] has 25 entries, and every docname index of the object
    table (the first component of each member entry) and of the terms table
    (a scalar value, or each element of a list value) is an integer [i] with
    [0 <= i < 25], a position of [filenames]; so every index is at most 24. *)
Theorem docname_indices_in_range :
  List.length (sequence searchindex "filenames") = 25%nat /\
  Forall (fun m => exists v, at_index 0 (snd m) = Some v /\ valid_index searchindex v)
         (members searchindex) /\
  Forall (fun tp => valid_posting searchindex (snd tp)) (entries terms) /\
  forall v, valid_index searchindex v -> exists i, v = Num i /\ 0 <= i <= 24.
Proof.
  split; [reflexivity|]. split; [|split].
  - apply (Forall_of_forallb _
             (fun m => match at_index 0 (snd m) with
                       | Some v => is_index searchindex v
                       | None => false
                       end)).
    + intros m H. destruct (at_index 0 (snd m)) as [v|]; [|discriminate].
      exists v. split; [reflexivity|now apply is_index_valid].
    + vm_compute. reflexivity.
  - apply (Forall_of_forallb _ (fun tp => is_posting searchindex (snd tp))).
    + intros tp. apply is_posting_valid.
    + vm_compute. reflexivity.
  - intros v [i [-> Hi]]. rewrite filenames_length in Hi. exists i.
    split; [reflexivity|lia].
Qed.

(** C4: for every member entry of every inner mapping of the object table,
    the kind code (second component) and the priority code (third
    component), rendered as decimal strings, are keys of both [objtypes] and
    [objnames]. *)
Theorem entry_codes_are_keys :
  Forall (fun m => exists k p,
              at_index 1 (snd m) = Some (Num k) /\
              at_index 2 (snd m) = Some (Num p) /\
              In (key_of_code k) (keys objtypes) /\ In (key_of_code k) (keys objnames) /\
              In (key_of_code p) (keys objtypes) /\ In (key_of_code p) (keys objnames))
         (members searchindex).
Proof.
  apply (Forall_of_forallb _ (fun m => codes_known objnames objtypes (snd m))).
  - intros m. unfold codes_known.
    destruct (at_index 1 (snd m)) as [[k| | |]|]; try discriminate.
    destruct (at_index 2 (snd m)) as [[p| | |]|]; try discriminate.
    intros H. repeat (apply andb_true_iff in H; destruct H as [H ?]).
    exists k, p. repeat split; try reflexivity; now apply In_of_existsb.
  - vm_compute. reflexivity.
Qed.

(** C5, as stated, fails: the top-level object has a [titles] key. *)
Lemma titles_key_present :
  In "titles" (keys searchindex) /\ get "titles" searchindex <> None.
Proof.
  split.
  - apply In_of_existsb. vm_compute. reflexivity.
  - replace (get "titles" searchindex) with (Some titles) by reflexivity.
    discriminate.
Qed.

(** C5, amended: the [titles] field is present; its value is an array of 25
    page-title strings, one for each docname, the title of the docname with
    index [i] standing at position [i]. *)
Theorem titles_array :
  exists ts,
    get "titles" searchindex = Some (Arr (map Str ts)) /\
    List.length ts = 25%nat /\
    List.length ts = List.length (elements filenames).
Proof.
  exists (strings (elements titles)).
  repeat split; vm_compute; reflexivity.
Qed.

(** C6: both representations of a terms value occur, a single docname index
    and a list of docname indices; normalising a scalar [v] to the list
    [[v]] makes every terms value a list of docname indices. *)
Theorem terms_values_both_forms :
  (exists t i, get t terms = Some (Num i)) /\
  (exists t l, get t terms = Some (Arr (map Num l))) /\
  (forall v, normalize (Num v) = [Num v]) /\
  Forall (fun tp => exists l, normalize (snd tp) = map Num l /\
                              Forall (fun i => 0 <= i < 25) l)
         (entries terms).
Proof.
  split; [exists "00j", 8; reflexivity|].
  split; [exists "00000000e", [7; 8]; reflexivity|].
  split; [reflexivity|].
  apply (Forall_of_forallb _
           (fun tp => forallb (is_index searchindex) (normalize (snd tp)))).
  - intros tp H. exists (numbers (normalize (snd tp))).
    induction (normalize (snd tp)) as [|v r IH]; [split; [reflexivity|constructor]|].
    simpl in H. apply andb_true_iff in H. destruct H as [Hv Hr].
    destruct (IH Hr) as [E F].
    apply is_index_valid in Hv. destruct Hv as [i [-> Hi]].
    rewrite filenames_length in Hi.
    change (numbers (Num i :: r)) with (i :: numbers r).
    split; [simpl; now f_equal|constructor; [lia|assumption]].
  - vm_compute. reflexivity.
Qed.

(** C9: every list-valued posting of the terms table is an array of
    integers in strictly increasing order, hence without a duplicate, and
    empty postings occur: the value of the term [stft] is the empty list. *)
Theorem list_postings_strictly_increasing :
  Forall (fun tp => forall l, snd tp = Arr l ->
                    exists zs, l = map Num zs /\ StronglySorted Z.lt zs /\ NoDup zs)
         (entries terms) /\
  get "stft" terms = Some (Arr []).
Proof.
  split; [|reflexivity].
  apply (Forall_of_forallb _ (fun tp => sorted_posting (snd tp))).
  - intros tp H l E. rewrite E in H. simpl in H.
    apply andb_true_iff in H. destruct H as [Hn Hs].
    exists (numbers l). split; [now apply numbers_map_Num|].
    apply increasing_sorted in Hs. split; [assumption|now apply sorted_NoDup].
  - vm_compute. reflexivity.
Qed.

(** C10: [objtypes] and [objnames] have the same keys, the decimal strings
    of 0 to 6, and for every key [k] the string [objtypes[k]] is
    [objnames[k][0]], a colon, and [objnames[k][1]]. *)
Theorem objtypes_objnames_consistent :
  keys objtypes = ["0"; "1"; "2"; "3"; "4"; "5"; "6"] /\
  keys objnames = keys objtypes /\
  keys objtypes = map key_of_code [0; 1; 2; 3; 4; 5; 6] /\
  Forall (fun k => exists names ty d l,
              get k objnames = Some names /\ get k objtypes = Some (Str ty) /\
              at_index 0 names = Some (Str d) /\ at_index 1 names = Some (Str l) /\
              ty = d ++ ":" ++ l)
         (keys objtypes).
Proof.
  repeat split; try reflexivity.
  repeat (constructor; [do 4 eexists; repeat split; reflexivity|]).
  constructor.
Qed.

(** ** The loader *)

Section Decoding.

Context {A B : Type} (f : A -> option B) (g : B -> A).
Hypothesis f_inv : forall a b, f a = Some b -> a = g b.
Hypothesis f_g : forall b, f (g b) = Some b.

Lemma traverse_inv (l : list A) (bs : list B) :
  Search.traverse f l = Some bs -> l = map g bs.
Proof.
  revert bs. induction l as [|a r IH]; simpl; intros bs H.
  - now inversion H.
  - destruct (f a) as [b|] eqn:Ea; [|discriminate].
    destruct (Search.traverse f r) as [bs'|]; [|discriminate].
    inversion H; subst. simpl. f_equal; [now apply f_inv|now apply IH].
Qed.

Lemma traverse_map (bs : list B) : Search.traverse f (map g bs) = Some bs.
Proof.
  induction bs as [|b r IH]; simpl; [reflexivity|].
  now rewrite f_g, IH.
Qed.

End Decoding.

Lemma traverse_Forall2 {A B : Type} (f : A -> option B) (l : list A) (bs : list B) :
  Search.traverse f l = Some bs -> Forall2 (fun a b => f a = Some b) l bs.
Proof.
  revert bs. induction l as [|a r IH]; simpl; intros bs H.
  - inversion H. constructor.
  - destruct (f a) as [b|] eqn:Ea; [|discriminate].
    destruct (Search.traverse f r) as [bs'|]; [|discriminate].
    inversion H; subst. constructor; [assumption|now apply IH].
Qed.

Lemma as_num_inv (v : value) (n : Z) : Search.as_num v = Some n -> v = Num n.
Proof. destruct v; simpl; intros H; inversion H; reflexivity. Qed.

Lemma as_str_inv (v : value) (s : string) : Search.as_str v = Some s -> v = Str s.
Proof. destruct v; simpl; intros H; inversion H; reflexivity. Qed.

Lemma as_entry_inv (v : value) (e : Search.ObjectEntry) :
  Search.as_entry v = Some e -> v = Search.of_entry e.
Proof.
  destruct v as [| |l|]; simpl; try discriminate.
  destruct l as [|[d| | |] [|[k| | |] [|[p| | |] [|[|s| |] [|? ?]]]]]; try discriminate.
  intros H. inversion H. reflexivity.
Qed.

Lemma as_name_inv (v : value) (n : string * string * string) :
  Search.as_name v = Some n -> v = Search.of_name n.
Proof.
  destruct v as [| |l|]; simpl; try discriminate.
  destruct l as [|[|d| |] [|[|k| |] [|[|h| |] [|? ?]]]]; try discriminate.
  intros H. inversion H. reflexivity.
Qed.

Lemma as_list_inv {A : Type} (f : value -> option A) (g : A -> value) :
  (forall a b, f a = Some b -> a = g b) ->
  forall v l, Search.as_list f v = Some l -> v = Arr (map g l).
Proof.
  intros Hf v l. destruct v; simpl; try discriminate.
  intros H. f_equal. now apply (traverse_inv f g).
Qed.

Lemma as_table_inv {A : Type} (f : value -> option A) (g : A -> value) :
  (forall a b, f a = Some b -> a = g b) ->
  forall v t, Search.as_table f v = Some t -> v = Search.of_table g t.
Proof.
  intros Hf v t. destruct v as [| | |ps]; simpl; try discriminate.
  intros H. unfold Search.of_table. f_equal.
  apply (traverse_inv (Search.as_prop f) (fun kv => (fst kv, g (snd kv)))); [|exact H].
  intros [k a] [k' b]. unfold Search.as_prop. simpl.
  destruct (f a) as [b'|] eqn:E; [|discriminate].
  intros H'. inversion H'; subst. f_equal. now apply Hf.
Qed.

Lemma as_table_of_table {A : Type} (f : value -> option A) (g : A -> value) :
  (forall b, f (g b) = Some b) ->
  forall t, Search.as_table f (Search.of_table g t) = Some t.
Proof.
  intros Hf t. unfold Search.of_table, Search.as_table.
  apply (traverse_map (Search.as_prop f) (fun kv => (fst kv, g (snd kv)))).
  intros [k b]. unfold Search.as_prop. simpl. now rewrite Hf.
Qed.

Lemma as_posting_normalize (v : value) (l : list Z) :
  Search.as_posting v = Some l -> normalize v = map Num l.
Proof.
  destruct v as [i| |vs|]; simpl; try discriminate.
  - intros H. inversion H. reflexivity.
  - apply (traverse_inv Search.as_num Num). exact as_num_inv.
Qed.

Lemma required_inv {A : Type} (k : string) (f : value -> option A) (raw : value) (a : A) :
  Search.required k f raw = inr a -> exists v, get k raw = Some v /\ f v = Some a.
Proof.
  unfold Search.required, Search.ret, Search.throw.
  destruct (get k raw) as [v|]; [|discriminate].
  destruct (f v) as [a'|] eqn:E; [|discriminate].
  intros H. inversion H; subst. now exists v.
Qed.

Lemma optional_inv {A : Type} (k : string) (f : value -> option (list A)) (raw : value)
      (a : list A) :
  Search.optional k f raw = inr a ->
  match get k raw with
  | Some v => f v = Some a
  | None => a = []
  end.
Proof.
  unfold Search.optional, Search.ret, Search.throw.
  destruct (get k raw) as [v|].
  - destruct (f v) as [a'|]; [|discriminate]. intros H. now inversion H.
  - intros H. now inversion H.
Qed.

Lemma as_postings_inv (v : value) (tt : list (string * list Z)) :
  Search.as_table Search.as_posting v = Some tt ->
  exists ps, v = Obj ps /\
    Forall2 (fun kv kl => fst kv = fst kl /\ normalize (snd kv) = map Num (snd kl)) ps tt.
Proof.
  destruct v as [| | |tps]; simpl; try discriminate.
  intros D. exists tps. split; [reflexivity|].
  apply traverse_Forall2 in D. eapply Forall2_impl; [|exact D].
  intros [k p] [k' l]. unfold Search.as_prop. simpl.
  destruct (Search.as_posting p) as [l'|] eqn:E; [|discriminate].
  intros H. inversion H; subst. split; [reflexivity|now apply as_posting_normalize].
Qed.

(** What a successful parse says about the raw structure: five of the six
    required values are the encodings of the parsed tables, the terms table
    (and the title terms, when present) has the parsed postings once
    normalised, and the titles, when present, decode to the parsed titles. *)
Lemma parse_inv (raw : value) (ix : Search.Index) :
  Search.parse raw = inr ix ->
  get "envversion" raw = Some (Num (Search.version ix)) /\
  get "filenames" raw = Some (Arr (map Str (Search.docnames ix))) /\
  get "objects" raw
    = Some (Search.of_table (Search.of_table Search.of_entry) (Search.object_table ix)) /\
  get "objnames" raw = Some (Search.of_table Search.of_name (Search.kind_names ix)) /\
  get "objtypes" raw = Some (Search.of_table Str (Search.kind_types ix)) /\
  (exists ps,
     get "terms" raw = Some (Obj ps) /\
     Forall2 (fun kv kl => fst kv = fst kl /\ normalize (snd kv) = map Num (snd kl))
             ps (Search.term_table ix)) /\
  match get "titles" raw with
  | Some v => Search.as_titles v = Some (Search.title_table ix)
  | None => Search.title_table ix = []
  end /\
  match get "titleterms" raw with
  | Some v =>
      exists ps, v = Obj ps /\
        Forall2 (fun kv kl => fst kv = fst kl /\ normalize (snd kv) = map Num (snd kl))
                ps (Search.title_terms ix)
  | None => Search.title_terms ix = []
  end.
Proof.
  unfold Search.parse.
  destruct (Search.required "envversion" Search.as_num raw) as [|v] eqn:E1;
    cbn [Search.bind]; [discriminate|].
  destruct (Search.required "filenames" (Search.as_list Search.as_str) raw) as [|fs] eqn:E2;
    cbn [Search.bind]; [discriminate|].
  destruct (Search.required "objects" (Search.as_table (Search.as_table Search.as_entry)) raw)
    as [|os] eqn:E3; cbn [Search.bind]; [discriminate|].
  destruct (Search.required "objnames" (Search.as_table Search.as_name) raw) as [|ns] eqn:E4;
    cbn [Search.bind]; [discriminate|].
  destruct (Search.required "objtypes" (Search.as_table Search.as_str) raw) as [|ts] eqn:E5;
    cbn [Search.bind]; [discriminate|].
  destruct (Search.required "terms" (Search.as_table Search.as_posting) raw) as [|ps] eqn:E6;
    cbn [Search.bind]; [discriminate|].
  destruct (Search.optional "titles" Search.as_titles raw) as [|tl] eqn:E7;
    cbn [Search.bind]; [discriminate|].
  destruct (Search.optional "titleterms" (Search.as_table Search.as_posting) raw)
    as [|tt] eqn:E8; cbn [Search.bind]; [discriminate|].
  unfold Search.ret. intros H. inversion H; subst; clear H. cbn [Search.version
    Search.docnames Search.object_table Search.kind_names Search.kind_types
    Search.term_table Search.title_table Search.title_terms].
  apply required_inv in E1, E2, E3, E4, E5, E6.
  apply optional_inv in E7, E8.
  destruct E1 as [v1 [G1 D1]], E2 as [v2 [G2 D2]], E3 as [v3 [G3 D3]],
           E4 as [v4 [G4 D4]], E5 as [v5 [G5 D5]], E6 as [v6 [G6 D6]].
  apply as_num_inv in D1.
  apply (as_list_inv _ Str as_str_inv) in D2.
  apply (as_table_inv _ (Search.of_table Search.of_entry)
           (as_table_inv _ Search.of_entry as_entry_inv)) in D3.
  apply (as_table_inv _ _ as_name_inv) in D4.
  apply (as_table_inv _ _ as_str_inv) in D5.
  apply as_postings_inv in D6. destruct D6 as [tps [-> F6]].
  subst. repeat (split; [assumption|]).
  split; [now exists tps|]. split; [exact E7|].
  destruct (get "titleterms" raw) as [v8|]; [|exact E8].
  now apply as_postings_inv.
Qed.

(** *** The docname indices of a parsed structure *)

Lemma numbers_Num (l : list Z) : numbers (map Num l) = l.
Proof.
  induction l as [|i r IH]; [reflexivity|].
  change (numbers (map Num (i :: r))) with (i :: numbers (map Num r)).
  now rewrite IH.
Qed.

Lemma members_of_table (raw : value) (ot : list (string * list (string * Search.ObjectEntry))) :
  get "objects" raw = Some (Search.of_table (Search.of_table Search.of_entry) ot) ->
  members raw
  = flat_map (fun om => map (fun me => (fst om, fst me, Search.of_entry (snd me))) (snd om)) ot.
Proof.
  intros H. unfold members, table. rewrite H. clear H. simpl.
  induction ot as [|om r IH]; simpl; [reflexivity|].
  rewrite IH, map_map. reflexivity.
Qed.

Lemma object_indices_parsed (raw : value) (ix : Search.Index) :
  Search.parse raw = inr ix ->
  object_indices raw = map Search.docname_index (Search.entries_of ix).
Proof.
  intros H. apply parse_inv in H. destruct H as (_ & _ & H & _).
  unfold object_indices, Search.entries_of. rewrite (members_of_table _ _ H). clear H.
  induction (Search.object_table ix) as [|om r IH]; simpl; [reflexivity|].
  rewrite flat_map_app, map_app, IH. f_equal.
  clear. induction (snd om) as [|me ms IH]; simpl; [reflexivity|]. now rewrite IH.
Qed.

Lemma posting_indices (ps : list (string * value)) (tt : list (string * list Z)) :
  Forall2 (fun kv kl => fst kv = fst kl /\ normalize (snd kv) = map Num (snd kl)) ps tt ->
  flat_map (fun tp => numbers (normalize (snd tp))) ps = flat_map snd tt.
Proof.
  induction 1 as [|kv kl ps' tt' [_ E] _ IH]; simpl; [reflexivity|].
  now rewrite E, numbers_Num, IH.
Qed.

Lemma term_indices_parsed (raw : value) (ix : Search.Index) :
  Search.parse raw = inr ix ->
  term_indices raw = flat_map snd (Search.term_table ix).
Proof.
  intros H. apply parse_inv in H. destruct H as (_ & _ & _ & _ & _ & (ps & H & F) & _).
  unfold term_indices, table. rewrite H. simpl. now apply posting_indices.
Qed.

Lemma titleterm_indices_parsed (raw : value) (ix : Search.Index) :
  Search.parse raw = inr ix ->
  titleterm_indices raw = flat_map snd (Search.title_terms ix).
Proof.
  intros H. apply parse_inv in H. destruct H as (_ & _ & _ & _ & _ & _ & _ & H).
  unfold titleterm_indices, table.
  destruct (get "titleterms" raw) as [v|].
  - destruct H as (ps & -> & F). simpl. now apply posting_indices.
  - now rewrite H.
Qed.

Lemma traverse_length {A B : Type} (f : A -> option B) (l : list A) (bs : list B) :
  Search.traverse f l = Some bs -> List.length bs = List.length l.
Proof.
  intros H. apply traverse_Forall2 in H. symmetry. eapply Forall2_length. exact H.
Qed.

Lemma map_fst_combine {A B : Type} (a : list A) (b : list B) :
  List.length a = List.length b -> map fst (combine a b) = a.
Proof.
  revert b. induction a as [|x a IH]; intros [|y b] H; simpl in *; try discriminate;
    [reflexivity|]. f_equal. apply IH. now inversion H.
Qed.

Lemma positions_length (n : nat) : List.length (positions n) = n.
Proof. unfold positions. now rewrite length_map, length_seq. Qed.

Lemma as_titles_indices (v : value) (tl : list (Z * string)) :
  Search.as_titles v = Some tl ->
  match v with
  | Arr l => positions (List.length l)
  | Obj ps => flat_map (fun kv => match index_of_key (fst kv) with
                                  | Some i => [i]
                                  | None => []
                                  end) ps
  | _ => []
  end = map fst tl.
Proof.
  destruct v as [| |l|ps]; simpl; try discriminate.
  - destruct (Search.traverse Search.as_str l) as [ss|] eqn:E; [|discriminate].
    simpl. intros H. inversion H; subst. symmetry. apply map_fst_combine.
    rewrite positions_length. symmetry. now apply traverse_length in E.
  - intros H. apply traverse_Forall2 in H.
    induction H as [|kv it ps' tl' E _ IH]; simpl; [reflexivity|].
    unfold Search.as_title in E.
    destruct (index_of_key (fst kv)) as [i|]; [|discriminate].
    destruct (Search.as_str (snd kv)) as [s|]; [|discriminate].
    inversion E; subst. simpl. now rewrite IH.
Qed.

Lemma title_indices_parsed (raw : value) (ix : Search.Index) :
  Search.parse raw = inr ix ->
  title_indices raw = map fst (Search.title_table ix).
Proof.
  intros H. apply parse_inv in H. destruct H as (_ & _ & _ & _ & _ & _ & H & _).
  unfold title_indices. destruct (get "titles" raw) as [v|].
  - rewrite <- (as_titles_indices _ _ H). now destruct v.
  - now rewrite H.
Qed.

(** Parsing drops no docname index: those of the raw structure are those
    of the parsed tables. *)
Lemma docname_indices_parsed (raw : value) (ix : Search.Index) :
  Search.parse raw = inr ix -> docname_indices raw = Search.references ix.
Proof.
  intros H. unfold docname_indices, Search.references.
  now rewrite (object_indices_parsed _ _ H), (term_indices_parsed _ _ H),
    (titleterm_indices_parsed _ _ H), (title_indices_parsed _ _ H).
Qed.

Lemma in_range_parsed (raw : value) (ix : Search.Index) :
  Search.parse raw = inr ix -> forall i, in_range raw i = Search.in_bounds ix i.
Proof.
  intros H i. apply parse_inv in H. destruct H as (_ & H & _).
  unfold in_range, Search.in_bounds, sequence. rewrite H. simpl.
  now rewrite length_map.
Qed.

Lemma existsb_negb {A : Type} (f : A -> bool) (l : list A) :
  existsb (fun a => negb (f a)) l = negb (forallb f l).
Proof.
  induction l as [|a r IH]; simpl; [reflexivity|].
  rewrite IH. now destruct (f a).
Qed.

Lemma forallb_pointwise {A : Type} (f g : A -> bool) (l : list A) :
  (forall a, f a = g a) -> forallb f l = forallb g l.
Proof.
  intros E. induction l as [|a r IH]; simpl; [reflexivity|]. now rewrite E, IH.
Qed.

Lemma has_dangling_parsed (raw : value) (ix : Search.Index) :
  Search.parse raw = inr ix ->
  has_dangling raw = negb (forallb (Search.in_bounds ix) (Search.references ix)).
Proof.
  intros H. unfold has_dangling. rewrite existsb_negb, (docname_indices_parsed _ _ H).
  f_equal. apply forallb_pointwise. intros i. now apply in_range_parsed.
Qed.

(** The index is loaded exactly when nothing is detected. *)
Lemma check_inr (ix ix' : Search.Index) :
  Search.check ix = inr ix' ->
  ix' = ix /\ forallb (Search.in_bounds ix) (Search.references ix) = true
  /\ forallb (Search.known_code ix) (Search.codes ix) = true.
Proof.
  unfold Search.check, Search.diagnose, Search.ret, Search.throw.
  destruct (forallb (Search.in_bounds ix) (Search.references ix)); [|discriminate].
  destruct (forallb (Search.known_code ix) (Search.codes ix)); [|discriminate].
  intros H. inversion H. auto.
Qed.

Lemma check_dangling (ix : Search.Index) :
  forallb (Search.in_bounds ix) (Search.references ix) = false ->
  exists errs, Search.check ix = inl errs /\ In Search.DanglingReference errs.
Proof.
  intros H. unfold Search.check, Search.diagnose, Search.throw. rewrite H.
  eexists. split; [reflexivity|]. now left.
Qed.

Lemma setIndex_inr (raw : value) (ix : Search.Index) :
  Search.setIndex raw = inr ix -> Search.parse raw = inr ix /\ Search.check ix = inr ix.
Proof.
  unfold Search.setIndex. destruct (Search.parse raw) as [e|ix0]; cbn [Search.bind];
    [discriminate|].
  intros H. destruct (check_inr _ _ H) as [-> _]. now split.
Qed.

(** *** Writing back and reading again *)

Lemma lookup_normalized (t : string) (ps : list (string * value)) (tt : list (string * list Z)) :
  Forall2 (fun kv kl => fst kv = fst kl /\ normalize (snd kv) = map Num (snd kl)) ps tt ->
  option_map normalize (lookup t (map (fun kl => (fst kl, Arr (map Num (snd kl)))) tt))
  = option_map normalize (lookup t ps).
Proof.
  induction 1 as [|[k p] [k' l] ps' tt' [Ek Ep] _ IH]; simpl; [reflexivity|].
  simpl in Ek, Ep. subst k'.
  destruct (lookup t (map (fun kl => (fst kl, Arr (map Num (snd kl)))) tt')) as [w|];
    destruct (lookup t ps') as [w'|]; simpl in IH; try discriminate; simpl.
  - exact IH.
  - destruct (String.eqb t k); simpl; [now rewrite Ep|reflexivity].
Qed.

(** Term by term, what [serialize] writes has the key and the normalised
    posting of what was parsed. *)
Lemma written_postings (ps : list (string * value)) (tt : list (string * list Z)) :
  Forall2 (fun kv kl => fst kv = fst kl /\ normalize (snd kv) = map Num (snd kl)) ps tt ->
  Forall2 (fun a b => fst a = fst b /\ normalize (snd a) = normalize (snd b))
          (map (fun kl => (fst kl, Arr (map Num (snd kl)))) tt) ps.
Proof.
  induction 1 as [|kv kl ps' tt' [Ek Ep] _ IH]; simpl; constructor; [|exact IH].
  simpl. split; [now symmetry|now symmetry].
Qed.

Lemma serialize_fields (ix : Search.Index) :
  get "envversion" (Search.serialize ix) = Some (Num (Search.version ix)) /\
  get "filenames" (Search.serialize ix) = Some (Arr (map Str (Search.docnames ix))) /\
  get "objects" (Search.serialize ix)
    = Some (Search.of_table (Search.of_table Search.of_entry) (Search.object_table ix)) /\
  get "objnames" (Search.serialize ix)
    = Some (Search.of_table Search.of_name (Search.kind_names ix)) /\
  get "objtypes" (Search.serialize ix) = Some (Search.of_table Str (Search.kind_types ix)) /\
  get "terms" (Search.serialize ix)
    = Some (Search.of_table (fun l => Arr (map Num l)) (Search.term_table ix)) /\
  get "titles" (Search.serialize ix) = Some (Search.of_titles (Search.title_table ix)) /\
  get "titleterms" (Search.serialize ix)
    = Some (Search.of_table (fun l => Arr (map Num l)) (Search.title_terms ix)).
Proof. repeat split; reflexivity. Qed.

(** Parsing a structure and writing the parsed tables back keeps the
    [filenames] array, the object table with its member entries, the keys
    of the terms table in their order, and term by term the normalised
    posting. *)
Lemma serialize_parsed (raw : value) (ix : Search.Index) :
  Search.parse raw = inr ix ->
  sequence (Search.serialize ix) "filenames" = sequence raw "filenames" /\
  table (Search.serialize ix) "objects" = table raw "objects" /\
  members (Search.serialize ix) = members raw /\
  Forall2 (fun a b => fst a = fst b /\ normalize (snd a) = normalize (snd b))
          (table (Search.serialize ix) "terms") (table raw "terms") /\
  forall t, posting (Search.serialize ix) t = posting raw t.
Proof.
  intros H. pose proof (parse_inv _ _ H) as (_ & Hf & Ho & _ & _ & (ps & Ht & F) & _).
  destruct (serialize_fields ix) as (_ & Sf & So & _ & _ & St & _).
  split; [|split; [|split; [|split]]].
  - unfold sequence. now rewrite Hf, Sf.
  - unfold table. now rewrite Ho, So.
  - rewrite (members_of_table raw _ Ho). now apply members_of_table.
  - unfold table. rewrite Ht, St. unfold Search.of_table. cbn [entries].
    now apply written_postings.
  - intros t. pose proof (lookup_normalized t _ _ F) as L.
    unfold posting, table. rewrite Ht, St.
    unfold Search.of_table. cbn [entries].
    destruct (lookup t (map (fun kl => (fst kl, Arr (map Num (snd kl)))) (Search.term_table ix)));
      destruct (lookup t ps); simpl in L; try discriminate; [now inversion L|reflexivity].
Qed.

Lemma required_ok {A : Type} (k : string) (f : value -> option A) (raw v : value) (a : A) :
  get k raw = Some v -> f v = Some a -> Search.required k f raw = inr a.
Proof. intros G D. unfold Search.required. now rewrite G, D. Qed.

Lemma optional_ok {A : Type} (k : string) (f : value -> option (list A)) (raw v : value)
      (a : list A) :
  get k raw = Some v -> f v = Some a -> Search.optional k f raw = inr a.
Proof. intros G D. unfold Search.optional. now rewrite G, D. Qed.

(** A code converted to a key reads back as the code. *)
Lemma index_of_key_of_code (z : Z) : index_of_key (key_of_code z) = Some z.
Proof.
  unfold index_of_key, key_of_code.
  rewrite NilZero.isi.
  - simpl. now rewrite DecimalZ.of_to.
  - destruct z as [|p|p]; simpl; try discriminate.
    intros H. inversion H as [E]. now apply DecimalPos.Unsigned.to_uint_nonnil in E.
  - destruct z as [|p|p]; simpl; try discriminate.
    intros H. inversion H as [E]. now apply DecimalPos.Unsigned.to_uint_nonnil in E.
Qed.

Lemma as_titles_of_titles (t : list (Z * string)) :
  Search.as_titles (Search.of_titles t) = Some t.
Proof.
  unfold Search.of_titles, Search.as_titles.
  induction t as [|[i s] r IH]; simpl; [reflexivity|].
  unfold Search.as_title at 1. simpl. rewrite index_of_key_of_code.
  now rewrite IH.
Qed.

(** Reading back what [serialize] wrote gives the tables it was given. *)
Lemma parse_serialize (ix : Search.Index) : Search.parse (Search.serialize ix) = inr ix.
Proof.
  destruct (serialize_fields ix) as (E1 & E2 & E3 & E4 & E5 & E6 & E7 & E8).
  assert (forall t, Search.as_table Search.as_posting
                      (Search.of_table (fun l => Arr (map Num l)) t) = Some t) as P.
  { intros t. apply as_table_of_table. intros l.
    apply (traverse_map Search.as_num Num). reflexivity. }
  unfold Search.parse.
  rewrite (required_ok _ Search.as_num _ _ _ E1 eq_refl). cbn [Search.bind].
  rewrite (required_ok _ _ _ _ (Search.docnames ix) E2)
    by (apply (traverse_map Search.as_str Str); reflexivity).
  cbn [Search.bind].
  rewrite (required_ok _ _ _ _ (Search.object_table ix) E3)
    by (apply as_table_of_table; intros t; apply as_table_of_table; now intros []).
  cbn [Search.bind].
  rewrite (required_ok _ _ _ _ (Search.kind_names ix) E4)
    by (apply as_table_of_table; now intros [[? ?] ?]).
  cbn [Search.bind].
  rewrite (required_ok _ _ _ _ (Search.kind_types ix) E5)
    by (apply as_table_of_table; reflexivity).
  cbn [Search.bind].
  rewrite (required_ok _ _ _ _ (Search.term_table ix) E6) by apply P.
  cbn [Search.bind].
  rewrite (optional_ok _ _ _ _ (Search.title_table ix) E7) by apply as_titles_of_titles.
  cbn [Search.bind].
  rewrite (optional_ok _ _ _ _ (Search.title_terms ix) E8) by apply P.
  cbn [Search.bind].
  now destruct ix.
Qed.

(** The parsing step knows one error only. *)
Lemma required_error {A : Type} (k : string) (f : value -> option A) (raw : value)
      (errs : list Search.LoadError) :
  Search.required k f raw = inl errs -> errs = [Search.MalformedArtifact].
Proof.
  unfold Search.required, Search.ret, Search.throw.
  destruct (get k raw) as [v|]; [destruct (f v)|]; intros H; now inversion H.
Qed.

Lemma optional_error {A : Type} (k : string) (f : value -> option (list A)) (raw : value)
      (errs : list Search.LoadError) :
  Search.optional k f raw = inl errs -> errs = [Search.MalformedArtifact].
Proof.
  unfold Search.optional, Search.ret, Search.throw.
  destruct (get k raw) as [v|]; [destruct (f v)|]; intros H; now inversion H.
Qed.

Lemma parse_error (raw : value) (errs : list Search.LoadError) :
  Search.parse raw = inl errs -> errs = [Search.MalformedArtifact].
Proof.
  unfold Search.parse.
  repeat match goal with
         | |- context [Search.bind (Search.required ?k ?f raw) _] =>
             let E := fresh "E" in
             destruct (Search.required k f raw) eqn:E; cbn [Search.bind];
             [intros H; inversion H; subst; now apply required_error in E|]
         | |- context [Search.bind (Search.optional ?k ?f raw) _] =>
             let E := fresh "E" in
             destruct (Search.optional k f raw) eqn:E; cbn [Search.bind];
             [intros H; inversion H; subst; now apply optional_error in E|]
         end.
  discriminate.
Qed.

(** *** The loader on the artifact and on the samples *)

(** The loader accepts the artifact. *)
Lemma searchindex_loads : exists ix, Search.setIndex searchindex = inr ix.
Proof.
  destruct (Search.setIndex searchindex) as [e|ix] eqn:E.
  - vm_compute in E. discriminate.
  - now exists ix.
Qed.

(** An index that was loaded loads again, to the same tables, from what
    [serialize] writes. *)
Lemma serialize_loads_again (raw : value) (ix : Search.Index) :
  Search.setIndex raw = inr ix -> Search.setIndex (Search.serialize ix) = inr ix.
Proof.
  intros H. apply setIndex_inr in H. destruct H as [_ C].
  unfold Search.setIndex. rewrite parse_serialize. exact C.
Qed.

(** A posting that refers past the end of [filenames] is rejected, and so
    are a title and a title term that do. *)
Example dangling_index_rejected :
  (has_dangling dangling_index = true /\
   Search.setIndex dangling_index = inl [Search.DanglingReference]) /\
  (has_dangling dangling_title_index = true /\
   Search.setIndex dangling_title_index = inl [Search.DanglingReference]) /\
  (has_dangling dangling_titleterm_index = true /\
   Search.setIndex dangling_titleterm_index = inl [Search.DanglingReference]).
Proof. repeat split; reflexivity. Qed.

(** Both kinds of error are reported when both are found. *)
Example doubly_wrong_index_rejected :
  Search.setIndex doubly_wrong_index
  = inl [Search.DanglingReference; Search.UnknownCode].
Proof. reflexivity. Qed.

(** C7: for the artifact, loading the structure into the tables and writing
    them back yields a structure with the same docname sequence in the same
    order, the same object table with the same member entries, the same
    terms in the same order and, for every term, a posting list that is a
    permutation of the original one (a term whose posting is empty is kept
    with its empty posting). *)
Theorem searchindex_roundtrip :
  exists ix,
    Search.setIndex searchindex = inr ix /\
    sequence (Search.serialize ix) "filenames" = sequence searchindex "filenames" /\
    table (Search.serialize ix) "objects" = table searchindex "objects" /\
    (forall m, In m (members (Search.serialize ix)) <-> In m (members searchindex)) /\
    map fst (table (Search.serialize ix) "terms") = keys terms /\
    Forall2 (fun a b => fst a = fst b /\ Permutation (normalize (snd a)) (normalize (snd b)))
            (table (Search.serialize ix) "terms") (entries terms) /\
    (forall t, Permutation (posting (Search.serialize ix) t) (posting searchindex t)).
Proof.
  destruct searchindex_loads as [ix E]. exists ix. split; [exact E|].
  apply setIndex_inr in E. destruct E as [E _].
  destruct (serialize_parsed _ _ E) as (Hf & Ho & Hm & Hk & Ht).
  change (table searchindex "terms") with (entries terms) in Hk.
  split; [exact Hf|]. split; [exact Ho|]. split; [|split; [|split]].
  - intros m. now rewrite Hm.
  - unfold keys. clear -Hk.
    induction Hk as [|a b l l' [Ea _] _ IH]; simpl; [reflexivity|]. now rewrite Ea, IH.
  - eapply Forall2_impl; [|exact Hk].
    intros a b [Ea Eb]. split; [exact Ea|]. now rewrite Eb.
  - intros t. now rewrite Ht.
Qed.

(** C8, as stated, fails: the loader returns an error for a structure none
    of whose docname indices is out of range, when a kind code is unknown or
    when a required key is missing. *)
Lemma rejected_without_dangling :
  (Search.setIndex unknown_kind_index = inl [Search.UnknownCode] /\
   has_dangling unknown_kind_index = false) /\
  (Search.setIndex truncated_index = inl [Search.MalformedArtifact] /\
   has_dangling truncated_index = false).
Proof. repeat split; reflexivity. Qed.

(** C8, amended: for every input structure, if some docname index of the
    structure (of its objects, terms, title terms or titles) is out of range
    of [filenames], the loader returns an error; and an index it loads has
    all the docname indices of the structure, none of them out of range.
    (An error does not imply an index out of range: a malformed artifact
    and an unknown code are errors too.) *)
Theorem setIndex_rejects_dangling (raw : value) :
  (has_dangling raw = true ->
   exists errs, Search.setIndex raw = inl errs /\ errs <> []) /\
  (forall ix, Search.setIndex raw = inr ix ->
              has_dangling raw = false /\
              Search.references ix = docname_indices raw /\
              Forall (fun i => 0 <= i < Z.of_nat (List.length (Search.docnames ix)))
                     (Search.references ix)).
Proof.
  split.
  - intros D. unfold Search.setIndex.
    destruct (Search.parse raw) as [errs|ix] eqn:E; cbn [Search.bind].
    + exists errs. split; [reflexivity|]. apply parse_error in E. now subst.
    + rewrite (has_dangling_parsed _ _ E) in D. apply negb_true_iff in D.
      destruct (check_dangling _ D) as [errs [C I]].
      exists errs. split; [exact C|]. intros ->. contradiction.
  - intros ix H. apply setIndex_inr in H. destruct H as [P C].
    apply check_inr in C. destruct C as (_ & B & _).
    split; [|split].
    + rewrite (has_dangling_parsed _ _ P), B. reflexivity.
    + symmetry. now apply docname_indices_parsed.
    + revert B. apply Forall_of_forallb. intros i Hi.
      unfold Search.in_bounds in Hi. apply andb_true_iff in Hi. destruct Hi as [H0 H1].
      apply Z.leb_le in H0. apply Z.ltb_lt in H1. lia.
Qed.

(** ** Further invariants of the tables *)

Lemma lookup_absent (k : string) (ps : list (string * value)) :
  ~ In k (map fst ps) -> lookup k ps = None.
Proof.
  induction ps as [|[k' v] r IH]; simpl; intros H; [reflexivity|].
  rewrite IH by tauto.
  destruct (String.eqb_spec k k') as [->|_]; [|reflexivity].
  exfalso. apply H. now left.
Qed.

Lemma lookup_written (k : string) (v : value) (ps : list (string * value)) :
  NoDup (map fst ps) -> In (k, v) ps -> lookup k ps = Some v.
Proof.
  induction ps as [|[k' v'] r IH]; simpl; intros ND H; [contradiction|].
  inversion ND as [|? ? Hk Hr]; subst.
  destruct H as [H|H].
  - inversion H; subst. rewrite (lookup_absent _ _ Hk). now rewrite String.eqb_refl.
  - now rewrite (IH Hr H).
Qed.

Lemma written_retrievable (o : value) :
  NoDup (keys o) -> Forall (fun kv => get (fst kv) o = Some (snd kv)) (entries o).
Proof.
  intros ND. apply Forall_forall. intros [k v] H.
  destruct o as [| | |ps]; simpl in H; try contradiction.
  simpl. now apply lookup_written.
Qed.

Lemma numbers_sorted_posting (l : list value) :
  forallb is_num l && increasing (numbers l) = true ->
  exists zs, l = map Num zs /\ StronglySorted Z.lt zs /\ NoDup zs.
Proof.
  intros H. apply andb_true_iff in H. destruct H as [Hn Hs].
  exists (numbers l). split; [now apply numbers_map_Num|].
  apply increasing_sorted in Hs. split; [assumption|now apply sorted_NoDup].
Qed.

(** X1: every value of the [titleterms] table is one docname index or an
    array of docname indices, each of them a position of [filenames], which
    has 25 entries: the title terms have no dangling reference either. *)
Theorem titleterms_indices_in_range :
  List.length (sequence searchindex "filenames") = 25%nat /\
  Forall (fun tp => valid_posting searchindex (snd tp)) (entries titleterms).
Proof.
  split; [reflexivity|].
  apply (Forall_of_forallb _ (fun tp => is_posting searchindex (snd tp))).
  - intros tp. apply is_posting_valid.
  - vm_compute. reflexivity.
Qed.

(** X2: every array value of the [titleterms] table is a strictly
    increasing list of integers, so no page is listed twice for a title
    term. *)
Theorem titleterms_postings_strictly_increasing :
  Forall (fun tp => forall l, snd tp = Arr l ->
                    exists zs, l = map Num zs /\ StronglySorted Z.lt zs /\ NoDup zs)
         (entries titleterms).
Proof.
  apply (Forall_of_forallb _ (fun tp => sorted_posting (snd tp))).
  - intros tp H l E. rewrite E in H. now apply numbers_sorted_posting.
  - vm_compute. reflexivity.
Qed.

(** X3: a page listed for a word in [titleterms] is not listed for the same
    word in [terms]: for every key of both tables the two postings have no
    docname index in common. *)
Theorem title_and_body_postings_disjoint :
  Forall (fun tp => forall p i, get (fst tp) terms = Some p ->
                    In i (indices (snd tp)) -> ~ In i (indices p))
         (entries titleterms).
Proof.
  apply (Forall_of_forallb _
           (fun tp => match get (fst tp) terms with
                      | Some p => forallb (fun i => negb (existsb (Z.eqb i) (indices p)))
                                          (indices (snd tp))
                      | None => true
                      end)).
  - intros tp H p i E Hi Hp. rewrite E in H.
    rewrite forallb_forall in H. specialize (H i Hi).
    apply negb_true_iff in H.
    assert (existsb (Z.eqb i) (indices p) = true) as C.
    { apply existsb_exists. exists i. split; [assumption|apply Z.eqb_refl]. }
    congruence.
  - vm_compute. reflexivity.
Qed.

(** X4: every page has a title term: each position of [filenames] occurs in
    the posting of some key of [titleterms]. *)
Theorem every_page_has_a_title_term (i : Z) :
  0 <= i < Z.of_nat (List.length (elements filenames)) ->
  exists t q, In (t, q) (entries titleterms) /\ In i (indices q).
Proof.
  intros Hi.
  assert (Forall (fun n => exists t q, In (t, q) (entries titleterms)
                                       /\ In (Z.of_nat n) (indices q))
                 (seq 0 (List.length (elements filenames)))) as F.
  { apply (Forall_of_forallb _
             (fun n => existsb (fun tq => existsb (Z.eqb (Z.of_nat n)) (indices (snd tq)))
                               (entries titleterms))).
    - intros n H. apply existsb_exists in H. destruct H as [[t q] [Hin H]].
      apply existsb_exists in H. destruct H as [j [Hj E]].
      apply Z.eqb_eq in E. subst j. now exists t, q.
    - vm_compute. reflexivity. }
  rewrite Forall_forall in F.
  specialize (F (Z.to_nat i)). rewrite Z2Nat.id in F by lia.
  apply F. apply in_seq. lia.
Qed.

Lemma every_page_has_a_title_term_witness :
  0 <= 23 < Z.of_nat (List.length (elements filenames)) /\
  exists t q, In (t, q) (entries titleterms) /\ In 23 (indices q).
Proof.
  assert (0 <= 23 < Z.of_nat (List.length (elements filenames))) as H.
  { split; [discriminate|reflexivity]. }
  split; [exact H|exact (every_page_has_a_title_term 23 H)].
Defined.

(** X5: no entry of the literal is shadowed: in the top-level object, in
    [terms], [titleterms], [objnames], [objtypes], [objects] and in every
    inner mapping of [objects], reading a written key gives the value
    written with it. *)
Theorem written_entries_retrievable :
  Forall (fun o => Forall (fun kv => get (fst kv) o = Some (snd kv)) (entries o))
         ([searchindex; terms; titleterms; objnames; objtypes; objects]
            ++ map snd (entries objects)).
Proof.
  destruct keys_distinct as (H0 & H1 & H2 & H3 & H4 & H5 & H6).
  apply Forall_app. split.
  - repeat (constructor; [now apply written_retrievable|]). constructor.
  - apply Forall_forall. intros o Ho. apply in_map_iff in Ho.
    destruct Ho as [om [<- Hom]]. apply written_retrievable.
    rewrite Forall_forall in H6. now apply H6.
Qed.

(** X6: the docnames are pairwise different strings, so a docname
    determines its index. *)
Theorem filenames_distinct :
  exists fs, elements filenames = map Str fs /\ NoDup fs.
Proof.
  exists (strings (elements filenames)).
  split; [reflexivity|]. apply distinct_NoDup. vm_compute. reflexivity.
Qed.

Lemma prefix_split (p s : string) : String.prefix p s = true -> exists r, s = p ++ r.
Proof.
  revert s. induction p as [|c p IH]; intros s H.
  - now exists s.
  - destruct s as [|c' s']; simpl in H; [discriminate|].
    destruct (Ascii.ascii_dec c c') as [->|_]; [|discriminate].
    destruct (IH s' H) as [r ->]. now exists r.
Qed.

Lemma kind_in_spec (ks : list Z) (e : value) :
  kind_in ks e = true <-> exists k, number_at 1 e = Some k /\ In k ks.
Proof.
  unfold kind_in. destruct (number_at 1 e) as [k|].
  - split.
    + intros H. apply existsb_exists in H. destruct H as [j [Hj E]].
      apply Z.eqb_eq in E. subst j. now exists k.
    + intros [j [E Hj]]. inversion E; subst j.
      apply existsb_exists. exists k. split; [assumption|apply Z.eqb_refl].
  - split; [discriminate|]. intros [j [E _]]. discriminate.
Qed.

(** X7: the object table is closed under its own names: the dotted name of
    every member that is a module or a class is an owner key of the table,
    and every owner key but the empty one is the dotted name of such a
    member. *)
Theorem owners_are_containers :
  Forall (fun m => is_container (entry_of m) = true ->
                   In (full_name (owner_of m) (name_of m)) (keys objects))
         (members searchindex) /\
  Forall (fun o => o = EmptyString \/
                   exists m, In m (members searchindex) /\
                             is_container (entry_of m) = true /\
                             o = full_name (owner_of m) (name_of m))
         (keys objects).
Proof.
  split.
  - apply (Forall_of_forallb _
             (fun m => negb (is_container (entry_of m))
                       || existsb (String.eqb (full_name (owner_of m) (name_of m)))
                                  (keys objects))).
    + intros m H C. rewrite C in H. simpl in H. now apply In_of_existsb.
    + vm_compute. reflexivity.
  - apply (Forall_of_forallb _
             (fun o => String.eqb o EmptyString
                       || existsb (fun m => is_container (entry_of m)
                                            && String.eqb o (full_name (owner_of m) (name_of m)))
                                  (members searchindex))).
    + intros o H. apply orb_true_iff in H. destruct H as [H|H].
      * left. now apply String.eqb_eq.
      * right. apply existsb_exists in H. destruct H as [m [Hm H]].
        apply andb_true_iff in H. destruct H as [C E].
        apply String.eqb_eq in E. now exists m.
    + vm_compute. reflexivity.
Qed.

(** X8: the members of a module or class are documented on the page of
    their owner: when a member is a module or a class with docname index
    [d], every member listed under its dotted name has the docname index
    [d]. *)
Theorem members_on_owner_page :
  Forall (fun m => forall d ms,
              is_container (entry_of m) = true ->
              number_at 0 (entry_of m) = Some d ->
              resolve searchindex (full_name (owner_of m) (name_of m)) = Some ms ->
              Forall (fun me => number_at 0 (snd me) = Some d) ms)
         (members searchindex).
Proof.
  apply (Forall_of_forallb _
           (fun m => negb (is_container (entry_of m))
                     || match number_at 0 (entry_of m),
                              resolve searchindex (full_name (owner_of m) (name_of m)) with
                        | Some d, Some ms =>
                            forallb (fun me => match number_at 0 (snd me) with
                                               | Some d' => d' =? d
                                               | None => false
                                               end) ms
                        | _, _ => true
                        end)).
  - intros m H d ms C Ed Er. rewrite C, Ed, Er in H. simpl in H.
    revert H. apply Forall_of_forallb. intros me H.
    destruct (number_at 0 (snd me)) as [d'|]; [|discriminate].
    apply Z.eqb_eq in H. now subst.
  - vm_compute. reflexivity.
Qed.

(** X9: kind, priority and signature of a member entry go together: a
    module (kind 0) has priority 0 and the signature [-]; an entry of any
    other kind has priority 1 and the empty signature. *)
Theorem entry_fields_coherent :
  Forall (fun m => exists k p s,
              number_at 1 (entry_of m) = Some k /\
              number_at 2 (entry_of m) = Some p /\
              string_at 3 (entry_of m) = Some s /\
              ((k = 0 /\ p = 0 /\ s = "-") \/ (k <> 0 /\ p = 1 /\ s = EmptyString)))
         (members searchindex).
Proof.
  apply (Forall_of_forallb _ (fun m => entry_coherent (entry_of m))).
  - intros m. unfold entry_coherent.
    destruct (number_at 1 (entry_of m)) as [k|]; [|discriminate].
    destruct (number_at 2 (entry_of m)) as [p|]; [|discriminate].
    destruct (string_at 3 (entry_of m)) as [s|]; [|discriminate].
    intros H. exists k, p, s. repeat (split; [reflexivity|]).
    destruct (Z.eqb_spec k 0) as [->|Hk];
      apply andb_true_iff in H; destruct H as [Hp Hs];
      apply Z.eqb_eq in Hp; apply String.eqb_eq in Hs; [left|right]; auto.
  - vm_compute. reflexivity.
Qed.

(** X10: the kinds follow the nesting: modules are listed under the empty
    owner key and nowhere else; a module has classes and functions (kinds 1
    and 4) as members; a class has static methods, methods, attributes and
    class methods (kinds 2, 3, 5 and 6). *)
Theorem kinds_follow_nesting :
  Forall (fun m => kind_in [0] (entry_of m) = true <-> owner_of m = EmptyString)
         (members searchindex) /\
  Forall (fun m => forall ms,
              resolve searchindex (full_name (owner_of m) (name_of m)) = Some ms ->
              (kind_in [0] (entry_of m) = true ->
               Forall (fun me => kind_in [1; 4] (snd me) = true) ms) /\
              (kind_in [1] (entry_of m) = true ->
               Forall (fun me => kind_in [2; 3; 5; 6] (snd me) = true) ms))
         (members searchindex).
Proof.
  split.
  - apply (Forall_of_forallb _
             (fun m => Bool.eqb (kind_in [0] (entry_of m))
                                (String.eqb (owner_of m) EmptyString))).
    + intros m H. apply Bool.eqb_prop in H. rewrite H. apply String.eqb_eq.
    + vm_compute. reflexivity.
  - apply (Forall_of_forallb _
             (fun m => match resolve searchindex (full_name (owner_of m) (name_of m)) with
                       | Some ms =>
                           (negb (kind_in [0] (entry_of m))
                            || forallb (fun me => kind_in [1; 4] (snd me)) ms)
                           && (negb (kind_in [1] (entry_of m))
                               || forallb (fun me => kind_in [2; 3; 5; 6] (snd me)) ms)
                       | None => true
                       end)).
    + intros m H ms E. rewrite E in H.
      apply andb_true_iff in H. destruct H as [H0 H1].
      split; intros K; [rewrite K in H0; simpl in H0|rewrite K in H1; simpl in H1].
      * revert H0. now apply Forall_of_forallb.
      * revert H1. now apply Forall_of_forallb.
    + vm_compute. reflexivity.
Qed.

(** X11: the keys of [terms] and of [titleterms] are in lower case: the
    lower-casing of a key is the key itself, so that a lower-cased query
    word can match every key. *)
Theorem term_keys_lower_case :
  Forall (fun k => to_lower k = k) (keys terms ++ keys titleterms).
Proof.
  apply (Forall_of_forallb _ (fun k => String.eqb (to_lower k) k)).
  - intros k. apply String.eqb_eq.
  - vm_compute. reflexivity.
Qed.

(** X12: every documented object is listed once: the dotted names of the
    members of the object table are pairwise different. *)
Theorem full_names_distinct :
  NoDup (map (fun m => full_name (owner_of m) (name_of m)) (members searchindex)).
Proof. apply distinct_NoDup. vm_compute. reflexivity. Qed.

(** X13: every member entry resolves, through its docname index, to a
    docname of [filenames] that lies under [src/]. *)
Theorem entries_resolve_to_src_pages :
  Forall (fun m => exists d f,
              number_at 0 (entry_of m) = Some d /\
              docname_at searchindex d = Some f /\
              exists r, f = "src/" ++ r)
         (members searchindex).
Proof.
  apply (Forall_of_forallb _
           (fun m => match number_at 0 (entry_of m) with
                     | Some d => match docname_at searchindex d with
                                 | Some f => String.prefix "src/" f
                                 | None => false
                                 end
                     | None => false
                     end)).
  - intros m H.
    destruct (number_at 0 (entry_of m)) as [d|] eqn:Ed; [|discriminate].
    destruct (docname_at searchindex d) as [f|] eqn:Ef; [|discriminate].
    exists d, f. split; [reflexivity|]. split; [exact Ef|].
    now apply prefix_split.
  - vm_compute. reflexivity.
Qed.
